(** * analyzer.py: review loader, prompt, model fallback loop, report

    A shallow embedding of [src/analyzer.py].  Python [str] values are
    sequences of Unicode code points; the pandas table, the generative
    model client, the JSON codec and the file system are external and
    enter through the [External] interface below. *)

From Stdlib Require Import String Ascii NArith ZArith Bool Arith Lia List.
From Stdlib Require Import DecimalString Floats Sorted.
Import ListNotations.

Set Implicit Arguments.
Set Warnings "-register-all,-inexact-float".

(** ** Python strings *)

Module PyStr.

(** A character is a Unicode code point. *)
Abbreviation char := N (only parsing).
Abbreviation pystr := (list N) (only parsing).

(** The source file is UTF-8; a literal of the source is decoded from the
    bytes of the Rocq literal that spells it. *)
Fixpoint utf8_decode (bs : list N) : pystr :=
  match bs with
  | [] => []
  | b :: r =>
      if (b <? 128)%N then b :: utf8_decode r
      else if (b <? 224)%N then
        match r with
        | b1 :: r1 =>
            N.lor (N.shiftl (N.land b 31) 6) (N.land b1 63) :: utf8_decode r1
        | [] => [b]
        end
      else if (b <? 240)%N then
        match r with
        | b1 :: b2 :: r2 =>
            N.lor (N.shiftl (N.land b 15) 12)
              (N.lor (N.shiftl (N.land b1 63) 6) (N.land b2 63))
            :: utf8_decode r2
        | _ => b :: r
        end
      else
        match r with
        | b1 :: b2 :: b3 :: r3 =>
            N.lor (N.shiftl (N.land b 7) 18)
              (N.lor (N.shiftl (N.land b1 63) 12)
                 (N.lor (N.shiftl (N.land b2 63) 6) (N.land b3 63)))
            :: utf8_decode r3
        | _ => b :: r
        end
  end.

Definition py (s : string) : pystr :=
  utf8_decode (List.map N_of_ascii (list_ascii_of_string s)).

(** ["\n"] *)
Definition nl : pystr := [10%N].

Definition char_eqb (a b : char) : bool := N.eqb a b.

Fixpoint eqb (a b : pystr) : bool :=
  match a, b with
  | [], [] => true
  | x :: a', y :: b' => char_eqb x y && eqb a' b'
  | _, _ => false
  end.

(** [str.isspace] on one character: the code points CPython's
    [Py_UNICODE_ISSPACE] accepts. *)
Definition isspace (c : char) : bool :=
  ((9 <=? c) && (c <=? 13)
   || (28 <=? c) && (c <=? 32)
   || (c =? 133) || (c =? 160) || (c =? 5760)
   || (8192 <=? c) && (c <=? 8202)
   || (c =? 8232) || (c =? 8233) || (c =? 8239) || (c =? 8287)
   || (c =? 12288))%N.

Fixpoint lstrip (s : pystr) : pystr :=
  match s with
  | [] => []
  | c :: s' => if isspace c then lstrip s' else s
  end.

Definition rstrip (s : pystr) : pystr := rev (lstrip (rev s)).

(** [s.strip()] *)
Definition strip (s : pystr) : pystr := rstrip (lstrip s).

(** [s.startswith(p)] *)
Fixpoint startswith (s p : pystr) {struct p} : bool :=
  match p, s with
  | [], _ => true
  | x :: p', y :: s' => char_eqb x y && startswith s' p'
  | _ :: _, [] => false
  end.

(** [sep in s] *)
Fixpoint contains (s sep : pystr) : bool :=
  startswith s sep ||
  match s with
  | [] => false
  | _ :: s' => contains s' sep
  end.

(** [s.partition(sep)] when [sep] occurs: the text before the leftmost
    occurrence and the text after it. *)
Fixpoint partition (s sep : pystr) : option (pystr * pystr) :=
  if startswith s sep then Some ([], skipn (length sep) s)
  else match s with
       | [] => None
       | c :: s' =>
           match partition s' sep with
           | Some (a, b) => Some (c :: a, b)
           | None => None
           end
       end.

(** [s.split(sep)] for a non-empty [sep] (Python raises [ValueError] on
    an empty one; the program only splits on the fence).  Every cut
    consumes at least one character, so [length s] rounds suffice. *)
Fixpoint split_fuel (fuel : nat) (s sep : pystr) : list pystr :=
  match fuel with
  | O => [s]
  | S fuel' =>
      match partition s sep with
      | None => [s]
      | Some (a, b) => a :: split_fuel fuel' b sep
      end
  end.

Definition split (s sep : pystr) : list pystr :=
  split_fuel (length s) s sep.

(** [s.replace(old, new)] for a non-empty [old]. *)
Fixpoint replace_fuel (fuel : nat) (s old new : pystr) : pystr :=
  match fuel with
  | O => s
  | S fuel' =>
      match partition s old with
      | None => s
      | Some (a, b) => a ++ new ++ replace_fuel fuel' b old new
      end
  end.

Definition replace (s old new : pystr) : pystr :=
  replace_fuel (length s) s old new.

(** [sep.join(parts)] *)
Fixpoint join (sep : pystr) (parts : list pystr) : pystr :=
  match parts with
  | [] => []
  | [p] => p
  | p :: rest => p ++ sep ++ join sep rest
  end.

(** [str(n)] for a non-negative [int]. *)
Definition str_nat (n : nat) : pystr :=
  py (NilZero.string_of_uint (Nat.to_uint n)).

(** [c * n] *)
Definition times (s : pystr) (n : nat) : pystr :=
  concat (repeat s n).

End PyStr.
Import PyStr.


(** A literal that holds double quotes is spelled with an apostrophe
    for each of them; the literals concerned hold no apostrophe. *)
Definition pyq (s : string) : pystr :=
  List.map (fun c => if (c =? 39)%N then 34%N else c) (py s).

(** ** Python lists *)

(** [l[:n]]: a negative bound counts from the end. *)
Definition slice_to {A} (l : list A) (n : Z) : list A :=
  if (0 <=? n)%Z then firstn (Z.to_nat n) l
  else firstn (length l - Z.to_nat (- n)) l.

(** [enumerate(l, start)] *)
Fixpoint enumerate {A} (start : nat) (l : list A) : list (nat * A) :=
  match l with
  | [] => []
  | x :: l' => (start, x) :: enumerate (S start) l'
  end.

(** ** Data *)

(** A cell of the parsed table: missing ([NaN]), or a value, of which
    the program only ever takes the [str]. *)
Inductive cell :=
| NaN
| Val (text : pystr).

Definition Series := list cell.

(** [Series.fillna('')] *)
Definition fillna_empty (col : Series) : Series :=
  List.map (fun c => match c with NaN => Val [] | Val t => Val t end) col.

(** [Series.astype(str).tolist()] *)
Definition astype_str (col : Series) : list pystr :=
  List.map (fun c => match c with NaN => py "nan" | Val t => t end) col.

(** The table [pd.read_csv] returns: the columns in header order. *)
Definition DataFrame := list (pystr * Series).

Definition df_columns (df : DataFrame) : list pystr := List.map fst df.

(** [len(df)] *)
Definition df_len (df : DataFrame) : nat :=
  match df with
  | [] => 0
  | (_, col) :: _ => length col
  end.

(** [c in df.columns] *)
Definition has_column (df : DataFrame) (c : pystr) : bool :=
  existsb (eqb c) (df_columns df).

(** [df[c]]; the program reads a column only after it has tested for
    its name, [KeyError] stands for the other case. *)
Fixpoint df_getitem (df : DataFrame) (c : pystr) : option Series :=
  match df with
  | [] => None
  | (name, col) :: df' => if eqb c name then Some col else df_getitem df' c
  end.

(** [df[c] = col] for a column that exists. *)
Fixpoint df_setitem (df : DataFrame) (c : pystr) (col : Series) : DataFrame :=
  match df with
  | [] => [(c, col)]
  | (name, old) :: df' =>
      if eqb c name then (name, col) :: df'
      else (name, old) :: df_setitem df' c col
  end.

(** What [json.loads] builds. *)
Inductive value :=
| VNone
| VBool (b : bool)
| VInt (z : Z)
| VFloat (f : float)
| VStr (s : pystr)
| VList (l : list value)
| VDict (d : list (pystr * value)).

Definition dict := list (pystr * value).

(** [d.get(k, default)] *)
Fixpoint dict_get (d : dict) (k : pystr) (default : value) : value :=
  match d with
  | [] => default
  | (k', v) :: d' => if eqb k k' then v else dict_get d' k default
  end.

(** [k in d] *)
Definition dict_has (d : dict) (k : pystr) : bool :=
  existsb (fun kv => eqb k (fst kv)) d.

(** ** Exceptions, state and effects *)

(** The exceptions the program meets.  [L] is the type of the errors the
    libraries raise on their own account (network, quota, I/O, parser):
    [Exception]s that are neither a [json.JSONDecodeError] nor a
    [pd.errors.EmptyDataError]. *)
Inductive exn (L : Type) :=
| FileNotFoundError (msg : pystr)
| ValueError (msg : pystr)
| EmptyDataError (msg : pystr)
| JSONDecodeError (msg : pystr) (doc : pystr)
| AttributeError (msg : pystr)
| IndexError (msg : pystr)
| KeyError (msg : pystr)
| TypeError (msg : pystr)
| Exception (msg : pystr)
| LibError (e : L).
Arguments FileNotFoundError {L} msg.
Arguments ValueError {L} msg.
Arguments EmptyDataError {L} msg.
Arguments JSONDecodeError {L} msg doc.
Arguments AttributeError {L} msg.
Arguments IndexError {L} msg.
Arguments KeyError {L} msg.
Arguments TypeError {L} msg.
Arguments Exception {L} msg.
Arguments LibError {L} e.

Inductive level := INFO | WARNING | ERROR.

Record GenerationConfig := {
  temperature : float;
  top_p : float;
  top_k : Z;
  max_output_tokens : Z
}.

(** The outside world: file system, model service, JSON codec. *)
Class External := {
  lib_exn : Type;
  (** [str(e)] *)
  lib_exn_str : lib_exn -> pystr;
  World : Type;
  (** [os.path.exists] *)
  os_path_exists : pystr -> World -> bool;
  (** [pd.read_csv]: the table, or the exception raised. *)
  pd_read_csv : pystr -> World -> DataFrame + exn lib_exn;
  (** Which SDK the imports found. *)
  USE_NEW_API : bool;
  (** [client.models.generate_content(model=, contents=, config=)]: the
      [.text] of the response ([None] when it has none), or the exception
      raised, and the world after the call. *)
  client_models_generate_content :
    pystr -> pystr -> GenerationConfig -> World ->
    (option pystr + lib_exn) * World;
  (** [genai.GenerativeModel(name, generation_config=).generate_content(prompt)] *)
  model_generate_content :
    pystr -> pystr -> GenerationConfig -> World ->
    (option pystr + lib_exn) * World;
  (** [json.loads]: the value, or the [str] of the [JSONDecodeError]. *)
  json_loads : pystr -> value + pystr;
  (** [json.dumps(v, indent=4, ensure_ascii=False)] *)
  json_dumps : value -> pystr;
  File : Type;
  (** [open(path, 'w', encoding='utf-8')] *)
  open_w : pystr -> World -> (File + lib_exn) * World;
  (** [json.dump(v, f, indent=4, ensure_ascii=False)] and the close that
      ends the [with] block. *)
  json_dump : value -> File -> World -> option lib_exn * World;
  (** [str] of a value that is not itself a [str]. *)
  py_repr : value -> pystr
}.

(** What the program changes as it runs. *)
Record state_of (W : Type) := {
  world : W;
  logs : list (level * pystr);   (* records of [logger], oldest first *)
  stdout : list pystr;           (* arguments of [print], oldest first *)
  calls : list pystr             (* models the service was asked, oldest first *)
}.

(** How a call ends: with a value, or with an exception raised. *)
Inductive outcome_of (L A : Type) :=
| Ret (a : A)
| Raise (e : exn L).
Arguments Ret {L A} a.
Arguments Raise {L A} e.

Section Program.

Context {E : External}.

Definition error := exn lib_exn.
Definition state := state_of World.
Definition outcome (A : Type) := outcome_of lib_exn A.

(** [str(e)] *)
Definition exn_str (e : error) : pystr :=
  match e with
  | FileNotFoundError m | ValueError m | EmptyDataError m
  | JSONDecodeError m _ | AttributeError m | IndexError m | KeyError m
  | TypeError m | Exception m => m
  | LibError e => lib_exn_str e
  end.

Definition M (A : Type) := state -> outcome A * state.

Definition ret {A} (a : A) : M A := fun st => (Ret a, st).
Definition raise {A} (e : error) : M A := fun st => (Raise e, st).
Definition bind {A B} (m : M A) (k : A -> M B) : M B :=
  fun st => match m st with
            | (Ret a, st') => k a st'
            | (Raise e, st') => (Raise e, st')
            end.

(** [try: body / except Exception as e: handler e] *)
Definition try_except {A} (body : M A) (handler : error -> M A) : M A :=
  fun st => match body st with
            | (Ret a, st') => (Ret a, st')
            | (Raise e, st') => handler e st'
            end.

Notation "x <- m ;; k" := (bind m (fun x => k))
  (at level 61, m at next level, right associativity).
Notation "m ;; k" := (bind m (fun _ => k))
  (at level 61, right associativity).

(** The state after [logger] has written [records]. *)
Definition logged (records : list (level * pystr)) (st : state) : state :=
  {| world := world st; logs := logs st ++ records;
     stdout := stdout st; calls := calls st |}.

(** The state after [print] has written [lines]. *)
Definition printed (lines : list pystr) (st : state) : state :=
  {| world := world st; logs := logs st;
     stdout := stdout st ++ lines; calls := calls st |}.

Definition logger (lv : level) (msg : pystr) : M unit :=
  fun st => (Ret tt, logged [(lv, msg)] st).

Definition print (line : pystr) : M unit :=
  fun st => (Ret tt, printed [line] st).

(** [for x in l: body x] *)
Fixpoint for_each {A} (l : list A) (body : A -> M unit) : M unit :=
  match l with
  | [] => ret tt
  | x :: l' => body x ;; for_each l' body
  end.

(** [str(v)], as an f-string formats a value. *)
Definition str_value (v : value) : pystr :=
  match v with
  | VStr s => s
  | _ => py_repr v
  end.

Definition type_name (v : value) : pystr :=
  match v with
  | VNone => py "NoneType"
  | VBool _ => py "bool"
  | VInt _ => py "int"
  | VFloat _ => py "float"
  | VStr _ => py "str"
  | VList _ => py "list"
  | VDict _ => py "dict"
  end.

(** What a [for] loop or [enumerate] iterates over. *)
Definition iter (v : value) : M (list value) :=
  match v with
  | VList l => ret l
  | VStr s => ret (List.map (fun c => VStr [c]) s)
  | VDict d => ret (List.map (fun kv => VStr (fst kv)) d)
  | _ => raise (TypeError (py "'" ++ type_name v ++ py "' object is not iterable"))
  end.

(** [d[k]] *)
Definition dict_getitem (d : dict) (k : pystr) : M value :=
  if dict_has d k then ret (dict_get d k VNone)
  else raise (KeyError (py "'" ++ k ++ py "'")).

(** ** analizza_dati *)

(** [rev.strip() and rev != 'nan'] *)
Definition kept (rev : pystr) : bool :=
  match strip rev with [] => false | _ :: _ => true end
  && negb (eqb rev (py "nan")).

(** The pairs [(i, rev)] that pass the [if] of the comprehension of
    line 72, and the list the comprehension builds from them. *)
Definition selected (reviews_list : list pystr) : list (nat * pystr) :=
  List.filter (fun ir => kept (snd ir)) (enumerate 0 reviews_list).

Definition block (ir : nat * pystr) : pystr :=
  py "Recensione " ++ str_nat (fst ir + 1) ++ py ": " ++ snd ir.

Definition blocks (reviews_list : list pystr) : list pystr :=
  List.map block (selected reviews_list).

Definition render (reviews_list : list pystr) : pystr :=
  join (nl ++ nl) (blocks reviews_list).

Definition read_column (df : DataFrame) (c : pystr) : M Series :=
  match df_getitem df c with
  | Some col => ret col
  | None => raise (KeyError (py "'" ++ c ++ py "'"))
  end.

(** Lines 57-80: the table is read, the column chosen, the reviews
    rendered; returns [(reviews, reviews_list)]. *)
Definition load_reviews (file_csv : pystr) (max_reviews : Z)
    (column_name : pystr) : M (pystr * list pystr) :=
  try_except
    (df <- (fun st => match pd_read_csv file_csv (world st) with
                      | inl df => (Ret df, st)
                      | inr e => (Raise e, st)
                      end) ;;
     logger INFO (py "Caricati " ++ str_nat (df_len df) ++ py " record dal file CSV") ;;
     if negb (has_column df column_name) then
       raise (ValueError (py "Colonna '" ++ column_name
                          ++ py "' non trovata. Colonne disponibili: "
                          ++ join (py ", ") (df_columns df)))
     else
       col <- read_column df column_name ;;
       let df := df_setitem df column_name (fillna_empty col) in
       reviews_list <-
         (if has_column df (py "a-size-base 3") then
            c <- read_column df (py "a-size-base 3") ;;
            ret (slice_to (astype_str c) max_reviews)
          else
            c <- read_column df column_name ;;
            ret (slice_to (astype_str c) max_reviews)) ;;
       let reviews := render reviews_list in
       logger INFO (py "Preparate " ++ str_nat (length reviews_list)
                    ++ py " recensioni per l'analisi") ;;
       ret (reviews, reviews_list))
    (fun e =>
       match e with
       | EmptyDataError _ => raise (ValueError (py "Il file CSV è vuoto"))
       | _ => logger ERROR (py "Errore nel caricamento file: " ++ exn_str e) ;;
              raise e
       end).

Definition generation_config : GenerationConfig :=
  {| temperature := 0.3; top_p := 0.8; top_k := 40; max_output_tokens := 4096 |}.

Definition model_names : list pystr :=
  [ py "models/gemini-2.5-flash";
    py "models/gemini-2.0-flash";
    py "models/gemini-flash-latest";
    py "models/gemini-2.5-pro";
    py "models/gemini-pro-latest" ].

Definition prompt_head : pystr := pyq "
    Agisci come un esperto analista di dati, consulente strategico e specialista di sentiment analysis.
    Analizza attentamente i seguenti feedback dei clienti e restituisci un output ESCLUSIVAMENTE in formato JSON valido.
    
    Struttura JSON richiesta (rispetta esattamente questa struttura):
    {
      'sentiment_score': 75,
      'sentiment_label': 'Positivo/Neutrale/Negativo',
      'numero_recensioni_analizzate': ".

Definition prompt_mid : pystr := pyq ",
      'punti_critici': [
        {'problema': 'descrizione problema', 'frequenza': 'alta/media/bassa', 'impatto': 'alto/medio/basso'},
        {'problema': 'descrizione problema', 'frequenza': 'alta/media/bassa', 'impatto': 'alto/medio/basso'}
      ],
      'vantaggi_competitivi': [
        {'vantaggio': 'descrizione pregio', 'menzioni': 'numero stimato di menzioni'},
        {'vantaggio': 'descrizione pregio', 'menzioni': 'numero stimato di menzioni'}
      ],
      'temi_ricorrenti': ['tema 1', 'tema 2', 'tema 3'],
      'consiglio_ingegneristico': 'descrizione tecnica dettagliata per migliorare il prodotto',
      'strategia_marketing': 'strategia comunicativa basata sui dati per migliorare la percezione del cliente',
      'priorita_intervento': ['azione prioritaria 1', 'azione prioritaria 2', 'azione prioritaria 3']
    }

    FEEDBACK DA ANALIZZARE:
    ".

Definition prompt_tail : pystr := pyq "
    
    Rispondi SOLO con il JSON, senza testo aggiuntivo prima o dopo.
    ".

(** The f-string of lines 99-126, with its two fields. *)
Definition build_prompt (reviews : pystr) (reviews_list : list pystr) : pystr :=
  prompt_head ++ str_nat (length reviews_list) ++ prompt_mid
  ++ reviews ++ prompt_tail.

Definition fence : pystr := py "```".

(** Lines 160-164, on the trimmed reply.  [None] is the [IndexError] of
    [split(...)[1]]. *)
Definition clean_response (text_response : pystr) : option pystr :=
  match
    (if startswith text_response fence then
       match nth_error (split text_response fence) 1 with
       | Some seg =>
           Some (if startswith seg (py "json") then skipn 4 seg else seg)
       | None => None
       end
     else Some text_response)
  with
  | Some t => Some (strip (replace t fence []))
  | None => None
  end.

(** The call of lines 135-155, either SDK. *)
Definition generate_content (model_name prompt : pystr) : M (option pystr) :=
  fun st =>
    let call := if USE_NEW_API then client_models_generate_content
                else model_generate_content in
    let '(r, w) := call model_name prompt generation_config (world st) in
    let st' := {| world := w; logs := logs st; stdout := stdout st;
                  calls := calls st ++ [model_name] |} in
    match r with
    | inl text => (Ret text, st')
    | inr e => (Raise (LibError e), st')
    end.

(** The [try] body of lines 133-169.  A [JSONDecodeError] carries the
    document it was raised on, which is [text_response] at that point. *)
Definition try_model (model_name prompt : pystr) : M value :=
  logger INFO (py "Tentativo con modello: " ++ model_name) ;;
  text <- generate_content model_name prompt ;;
  text_response <-
    match text with
    | Some t => ret (strip t)
    | None => raise (AttributeError
                       (py "'NoneType' object has no attribute 'strip'"))
    end ;;
  logger INFO (py "✓ Risposta ricevuta da Gemini API usando " ++ model_name) ;;
  text_response <-
    match clean_response text_response with
    | Some t => ret t
    | None => raise (IndexError (py "list index out of range"))
    end ;;
  result <-
    match json_loads text_response with
    | inl v => ret v
    | inr msg => raise (JSONDecodeError msg text_response)
    end ;;
  logger INFO (py "✓ Analisi completata con successo") ;;
  ret result.

(** The [except] clauses of lines 171-180: what is logged, and the value
    [last_error] takes. *)
Definition record_failure (model_name : pystr) (e : error) : M error :=
  match e with
  | JSONDecodeError _ doc =>
      logger ERROR (py "Errore nel parsing JSON con " ++ model_name
                    ++ py ": " ++ exn_str e) ;;
      logger ERROR (py "Risposta ricevuta: " ++ firstn 500 doc) ;;
      ret (ValueError (py "Risposta API non valida. Errore JSON: "
                       ++ exn_str e))
  | _ =>
      logger WARNING (py "Modello " ++ model_name
                      ++ py " non disponibile: " ++ exn_str e) ;;
      ret e
  end.

(** The [for] loop of lines 131-180: [inl result] when an iteration
    returns, [inr last_error] when the list is exhausted. *)
Fixpoint for_model_names (names : list pystr) (prompt : pystr)
    (last_error : option error) : M (value + option error) :=
  match names with
  | [] => ret (inr last_error)
  | model_name :: rest =>
      fun st =>
        match try_model model_name prompt st with
        | (Ret result, st1) => (Ret (inl result), st1)
        | (Raise e, st1) =>
            (last_error <- record_failure model_name e ;;
             for_model_names rest prompt (Some last_error)) st1
        end
  end.

(** Lines 129-184 over a list of candidates. *)
Definition try_models (names : list pystr) (prompt : pystr) : M value :=
  r <- for_model_names names prompt None ;;
  match r with
  | inl result => ret result
  | inr last_error =>
      logger ERROR (py "Tutti i modelli hanno fallito") ;;
      raise (match last_error with
             | Some e => e
             | None => Exception
                 (py "Impossibile generare contenuto con nessun modello disponibile")
             end)
  end.

Definition analizza_dati (file_csv : pystr) (max_reviews : Z)
    (column_name : pystr) : M value :=
  logger INFO (py "Inizio analisi del file: " ++ file_csv) ;;
  found <- (fun st => (Ret (os_path_exists file_csv (world st)), st)) ;;
  if negb found then
    raise (FileNotFoundError (py "File non trovato: " ++ file_csv))
  else
    loaded <- load_reviews file_csv max_reviews column_name ;;
    let prompt := build_prompt (fst loaded) (snd loaded) in
    try_models model_names prompt.

(** ** salva_risultati *)

Definition write_json (risultato : value) (output_file : pystr) : M unit :=
  fun st =>
    match open_w output_file (world st) with
    | (inr e, w) =>
        (Raise (LibError e),
         {| world := w; logs := logs st; stdout := stdout st; calls := calls st |})
    | (inl f, w) =>
        let '(r, w') := json_dump risultato f w in
        let st' := {| world := w'; logs := logs st; stdout := stdout st;
                      calls := calls st |} in
        match r with
        | Some e => (Raise (LibError e), st')
        | None => (Ret tt, st')
        end
    end.

Definition salva_risultati (risultato : value) (output_file : pystr) : M unit :=
  try_except
    (write_json risultato output_file ;;
     logger INFO (py "Risultati salvati in: " ++ output_file))
    (fun e =>
       logger ERROR (py "Errore nel salvataggio dei risultati: " ++ exn_str e)).

(** ** stampa_report *)

Definition NA : value := VStr (py "N/A").

Definition banner : pystr := times (py "=") 80.

(** Lines 202-235, once [risultato] is known to be a [dict]. *)
Definition stampa_sezioni (risultato : dict) : M unit :=
  print (nl ++ py "🎯 Sentiment Score: "
         ++ str_value (dict_get risultato (py "sentiment_score") NA)
         ++ py "/100") ;;
  print (py "📈 Sentiment: "
         ++ str_value (dict_get risultato (py "sentiment_label") NA)) ;;
  print (py "📝 Recensioni analizzate: "
         ++ str_value (dict_get risultato (py "numero_recensioni_analizzate") NA)) ;;
  print (nl ++ py "⚠️  PUNTI CRITICI:") ;;
  punti <- iter (dict_get risultato (py "punti_critici") (VList [])) ;;
  for_each (enumerate 1 punti) (fun ip =>
    let i := fst ip in
    let punto := snd ip in
    match punto with
    | VDict d =>
        print (py "   " ++ str_nat i ++ py ". "
               ++ str_value (dict_get d (py "problema") punto)) ;;
        print (py "      Frequenza: "
               ++ str_value (dict_get d (py "frequenza") NA)
               ++ py " | Impatto: "
               ++ str_value (dict_get d (py "impatto") NA))
    | _ => print (py "   " ++ str_nat i ++ py ". " ++ str_value punto)
    end) ;;
  print (nl ++ py "✅ VANTAGGI COMPETITIVI:") ;;
  vantaggi <- iter (dict_get risultato (py "vantaggi_competitivi") (VList [])) ;;
  for_each (enumerate 1 vantaggi) (fun iv =>
    let i := fst iv in
    let vantaggio := snd iv in
    match vantaggio with
    | VDict d =>
        print (py "   " ++ str_nat i ++ py ". "
               ++ str_value (dict_get d (py "vantaggio") vantaggio))
    | _ => print (py "   " ++ str_nat i ++ py ". " ++ str_value vantaggio)
    end) ;;
  (if dict_has risultato (py "temi_ricorrenti") then
     print (nl ++ py "🔍 TEMI RICORRENTI:") ;;
     v <- dict_getitem risultato (py "temi_ricorrenti") ;;
     temi <- iter v ;;
     for_each temi (fun tema => print (py "   • " ++ str_value tema))
   else ret tt) ;;
  print (nl ++ py "🔧 CONSIGLIO INGEGNERISTICO:") ;;
  print (py "   "
         ++ str_value (dict_get risultato (py "consiglio_ingegneristico") NA)) ;;
  print (nl ++ py "📢 STRATEGIA MARKETING:") ;;
  print (py "   "
         ++ str_value (dict_get risultato (py "strategia_marketing") NA)) ;;
  (if dict_has risultato (py "priorita_intervento") then
     print (nl ++ py "🎯 PRIORITÀ DI INTERVENTO:") ;;
     v <- dict_getitem risultato (py "priorita_intervento") ;;
     priorita <- iter v ;;
     for_each (enumerate 1 priorita) (fun ip =>
       print (py "   " ++ str_nat (fst ip) ++ py ". " ++ str_value (snd ip)))
   else ret tt) ;;
  print (nl ++ banner ++ nl).

(** The first [risultato.get] raises on anything but a [dict]. *)
Definition stampa_report (risultato : value) : M unit :=
  print (nl ++ banner) ;;
  print (py "📊 REPORT ANALISI RECENSIONI") ;;
  print banner ;;
  match risultato with
  | VDict d => stampa_sezioni d
  | _ => raise (AttributeError
                  (py "'" ++ type_name risultato
                   ++ py "' object has no attribute 'get'"))
  end.

(** ** The entry point; the value is the exit status. *)
Definition main : M Z :=
  try_except
    (let csv_file := py "recensioni.csv" in
     risultato <- analizza_dati csv_file 50 (py "a-size-base 3") ;;
     stampa_report risultato ;;
     salva_risultati risultato (py "analisi_risultati.json") ;;
     print (py "📄 Output JSON completo:") ;;
     print (json_dumps risultato) ;;
     ret 0%Z)
    (fun e =>
       logger ERROR (py "Errore durante l'esecuzione: " ++ exn_str e) ;;
       print (nl ++ py "❌ Errore: " ++ exn_str e) ;;
       ret 1%Z).

End Program.


(** ** A small world to run the program in *)

Module Demo.

(** The service answers a model by its entry in [service]; the table is
    what [read_csv] returns; [disk_ok] tells whether files open. *)
Definition reply := (option pystr + pystr)%type.

Record scenario := {
  table : DataFrame + exn pystr;
  service : list (pystr * reply);
  disk_ok : bool
}.

Fixpoint ask (srv : list (pystr * reply)) (model : pystr) : reply :=
  match srv with
  | [] => inr (py "404 model not found")
  | (m, r) :: srv' => if eqb model m then r else ask srv' model
  end.

(** A parser that knows two documents. *)
Definition loads (doc : pystr) : value + pystr :=
  if eqb doc (py "{}") then inl (VDict [])
  else if eqb doc (pyq "{'sentiment_score': 75}")
  then inl (VDict [(py "sentiment_score", VInt 75)])
  else inr (py "Expecting value: line 1 column 1 (char 0)").

#[local] Instance ext : External := {|
  lib_exn := pystr;
  lib_exn_str := fun e => e;
  World := scenario;
  os_path_exists := fun _ _ => true;
  pd_read_csv := fun _ w => table w;
  USE_NEW_API := true;
  client_models_generate_content := fun m _ _ w => (ask (service w) m, w);
  model_generate_content := fun m _ _ w => (ask (service w) m, w);
  json_loads := loads;
  json_dumps := fun _ => py "{}";
  File := unit;
  open_w := fun _ w =>
    (if disk_ok w then inl tt else inr (py "[Errno 13] Permission denied"), w);
  json_dump := fun _ _ w => (None, w);
  py_repr := fun v => match v with VInt z => str_nat (Z.to_nat z) | _ => py "?" end
|}.

Definition start (w : scenario) : state :=
  {| world := w; logs := []; stdout := []; calls := [] |}.

(** A run that only reads a table. *)
Definition of_table (df : DataFrame) : state :=
  start {| table := inl df; service := []; disk_ok := true |}.

(** No model is served but the last, whose reply is not JSON. *)
Definition last_is_not_json : state :=
  start {| table := inl [];
           service := [(py "models/gemini-pro-latest",
                        inl (Some (py "I cannot answer")))];
           disk_ok := true |}.

(** The first model is not served; the second replies with a fenced
    empty object. *)
Definition second_answers : state :=
  start {| table := inl [];
           service := [(py "models/gemini-2.0-flash",
                        inl (Some (py "```json" ++ nl ++ py "{}" ++ nl ++ py "```")))];
           disk_ok := true |}.

(** Files cannot be opened for writing. *)
Definition read_only_disk : state :=
  start {| table := inl []; service := []; disk_ok := false |}.

(** A whole run: a table with the override column, a service whose
    second model answers, a disk that refuses the file. *)
Definition whole_run : state :=
  start {| table := inl [(py "a-size-base 3", [Val (py "ok"); NaN])];
           service := [(py "models/gemini-2.0-flash",
                        inl (Some (py "```json" ++ nl
                                   ++ pyq "{'sentiment_score': 75}"
                                   ++ nl ++ py "```")))];
           disk_ok := false |}.

Definition reviews_table : DataFrame :=
  [(py "body", [Val (py "ok"); NaN; Val (py "also ok")])].

Definition override_only : DataFrame :=
  [(py "a-size-base 3", [Val (py "great")])].


(** One review, the text [nan] between two spaces. *)
Definition padded_nan : DataFrame :=
  [(py "body", [Val (py " nan ")])].

(** One review of three spaces. *)
Definition blank_row : DataFrame :=
  [(py "body", [Val (py "   ")])].

End Demo.

(** ** A second world: files may be missing, the older SDK is installed *)

Module Lab.

Record disk := {
  files : list (pystr * (DataFrame + exn pystr));
  answers : list (pystr * Demo.reply);
  writable : bool
}.

Fixpoint find_file (fs : list (pystr * (DataFrame + exn pystr))) (path : pystr) :
    option (DataFrame + exn pystr) :=
  match fs with
  | [] => None
  | (p, t) :: fs' => if eqb path p then Some t else find_file fs' path
  end.

(** A parser that also knows an array and [null]. *)
Definition loads (doc : pystr) : value + pystr :=
  if eqb doc (py "[]") then inl (VList [])
  else if eqb doc (py "null") then inl VNone
  else Demo.loads doc.

#[local] Instance ext : External := {|
  lib_exn := pystr;
  lib_exn_str := fun e => e;
  World := disk;
  os_path_exists := fun path w =>
    match find_file (files w) path with Some _ => true | None => false end;
  pd_read_csv := fun path w =>
    match find_file (files w) path with
    | Some t => t
    | None => inr (FileNotFoundError
                     (py "[Errno 2] No such file or directory: '" ++ path ++ py "'"))
    end;
  USE_NEW_API := false;
  client_models_generate_content := fun _ _ _ w =>
    (inr (py "name 'client' is not defined"), w);
  model_generate_content := fun m _ _ w => (Demo.ask (answers w) m, w);
  json_loads := loads;
  json_dumps := fun v => match v with VList [] => py "[]" | _ => py "{}" end;
  File := unit;
  open_w := fun _ w =>
    (if writable w then inl tt else inr (py "[Errno 13] Permission denied"), w);
  json_dump := fun _ _ w => (None, w);
  py_repr := fun v => match v with VInt z => str_nat (Z.to_nat z) | _ => py "?" end
|}.

Definition start (w : disk) : state :=
  {| world := w; logs := []; stdout := []; calls := [] |}.

(** No file at all. *)
Definition empty_disk : state :=
  start {| files := []; answers := []; writable := true |}.

(** The reviews are there; the first model answers with an array. *)
Definition array_reply : state :=
  start {| files := [(py "recensioni.csv",
                      inl [(py "a-size-base 3", [Val (py "ok")])])];
           answers := [(py "models/gemini-2.5-flash", inl (Some (py "[]")))];
           writable := true |}.

(** The file is there and holds nothing. *)
Definition empty_file : state :=
  start {| files := [(py "recensioni.csv",
                      inr (EmptyDataError (py "No columns to parse from file")))];
           answers := []; writable := true |}.

(** The file is there and cannot be parsed. *)
Definition broken_file : state :=
  start {| files := [(py "recensioni.csv",
                      inr (LibError (py "Error tokenizing data")))];
           answers := []; writable := true |}.

(** The reviews are a missing value and a blank; no model is served. *)
Definition no_usable_row : state :=
  start {| files := [(py "recensioni.csv",
                      inl [(py "body", [NaN; Val (py "  ")])])];
           answers := []; writable := true |}.
End Lab.

(** ** Definitions the statements use *)

(** A reply that wraps [j] in a Markdown fence. *)
Definition fenced (j : pystr) : pystr :=
  py "```json" ++ nl ++ j ++ nl ++ py "```".

(** A usable row in the words of the specification, section 4.1 (rows
    whose trimmed text is empty or equals the literal token [nan] are
    excluded): the trimmed text is neither empty nor [nan]. *)
Definition spec_usable (rev : pystr) : bool :=
  negb (eqb (strip rev) []) && negb (eqb (strip rev) (py "nan")).

(** The same words read on the text as it stands: the entry is neither
    empty nor [nan]. *)
Definition spec_usable_verbatim (rev : pystr) : bool :=
  negb (eqb rev []) && negb (eqb rev (py "nan")).

(** A usable row as the amended C2 words it: the trimmed text is not
    empty, and the text itself, untrimmed, is not [nan]. *)
Definition usable (rev : pystr) : bool :=
  negb (eqb (strip rev) []) && negb (eqb rev (py "nan")).

Section Reading.

Context {E : External}.

(** The column lines 66-71 read the reviews from, in a table that has
    [column_name]: [None] stands for the [KeyError] of a missing one. *)
Definition chosen_column (df : DataFrame) (column_name : pystr) : option Series :=
  match df_getitem df column_name with
  | None => None
  | Some col =>
      let df := df_setitem df column_name (fillna_empty col) in
      if has_column df (py "a-size-base 3")
      then df_getitem df (py "a-size-base 3")
      else df_getitem df column_name
  end.

(** The call of lines 135-155 as the service sees it. *)
Definition service_call (model_name prompt : pystr) (w : World) :
    (option pystr + lib_exn) * World :=
  (if USE_NEW_API then client_models_generate_content
   else model_generate_content) model_name prompt generation_config w.

(** What [last_error] becomes when the [try] body raises [e]. *)
Definition recorded (e : error) : error :=
  match e with
  | JSONDecodeError msg _ =>
      ValueError (py "Risposta API non valida. Errore JSON: " ++ msg)
  | _ => e
  end.

(** [failures prompt names st errs st']: run from [st], the attempts on
    [names], in order, all fail; [errs] lists what the [try] bodies
    raised, in that order, and [st'] is the state after the last
    [except] clause. *)
Inductive failures (prompt : pystr) :
    list pystr -> state -> list error -> state -> Prop :=
| failures_nil (st : state) : failures prompt [] st [] st
| failures_cons (m : pystr) (ms : list pystr) (st st1 st2 st3 : state)
    (e last_error : error) (es : list error) :
    try_model m prompt st = (Raise e, st1) ->
    record_failure m e st1 = (Ret last_error, st2) ->
    failures prompt ms st2 es st3 ->
    failures prompt (m :: ms) st (e :: es) st3.

(** A run of the attempts on [names] that stops at the first success:
    [Some (errs, st')] when all of them fail. *)
Fixpoint run_failures (names : list pystr) (prompt : pystr) (st : state) :
    option (list error * state) :=
  match names with
  | [] => Some ([], st)
  | m :: ms =>
      match try_model m prompt st with
      | (Raise e, st1) =>
          match record_failure m e st1 with
          | (Ret _, st2) =>
              match run_failures ms prompt st2 with
              | Some (es, st3) => Some (e :: es, st3)
              | None => None
              end
          | (Raise _, _) => None
          end
      | (Ret _, _) => None
      end
  end.

(** Line [b] is printed right after line [a]. *)
Definition follows (a b : pystr) (out : list pystr) : Prop :=
  exists pre post, out = pre ++ [a; b] ++ post.

(** The fields of the result the report iterates over. *)
Definition list_fields : list pystr :=
  [py "punti_critici"; py "vantaggi_competitivi";
   py "temi_ricorrenti"; py "priorita_intervento"].

(** What a [for] loop accepts. *)
Definition iterable (v : value) : bool :=
  match v with
  | VList _ | VStr _ | VDict _ => true
  | _ => false
  end.

(** The items a [for] loop goes through. *)
Definition items (v : value) : list value :=
  match v with
  | VList l => l
  | VStr s => List.map (fun c => VStr [c]) s
  | VDict d => List.map (fun kv => VStr (fst kv)) d
  | _ => []
  end.

(** Every list field of [d] that is present holds a value a [for] loop
    accepts. *)
Definition fields_iterable (d : dict) : Prop :=
  forall k, In k list_fields -> iterable (dict_get d k (VList [])) = true.

(** The lines one critical point and one advantage print. *)
Definition punto_lines (ip : nat * value) : list pystr :=
  match snd ip with
  | VDict d =>
      [py "   " ++ str_nat (fst ip) ++ py ". "
       ++ str_value (dict_get d (py "problema") (snd ip));
       py "      Frequenza: " ++ str_value (dict_get d (py "frequenza") NA)
       ++ py " | Impatto: " ++ str_value (dict_get d (py "impatto") NA)]
  | _ => [py "   " ++ str_nat (fst ip) ++ py ". " ++ str_value (snd ip)]
  end.

Definition vantaggio_lines (iv : nat * value) : list pystr :=
  match snd iv with
  | VDict d =>
      [py "   " ++ str_nat (fst iv) ++ py ". "
       ++ str_value (dict_get d (py "vantaggio") (snd iv))]
  | _ => [py "   " ++ str_nat (fst iv) ++ py ". " ++ str_value (snd iv)]
  end.

(** The lines [stampa_sezioni] prints for a result whose list fields can
    be iterated over. *)
Definition sezioni_lines (d : dict) : list pystr :=
  [nl ++ py "🎯 Sentiment Score: "
      ++ str_value (dict_get d (py "sentiment_score") NA) ++ py "/100";
   py "📈 Sentiment: " ++ str_value (dict_get d (py "sentiment_label") NA);
   py "📝 Recensioni analizzate: "
      ++ str_value (dict_get d (py "numero_recensioni_analizzate") NA);
   nl ++ py "⚠️  PUNTI CRITICI:"]
  ++ concat (List.map punto_lines
               (enumerate 1 (items (dict_get d (py "punti_critici") (VList [])))))
  ++ [nl ++ py "✅ VANTAGGI COMPETITIVI:"]
  ++ concat (List.map vantaggio_lines
               (enumerate 1 (items (dict_get d (py "vantaggi_competitivi") (VList [])))))
  ++ (if dict_has d (py "temi_ricorrenti") then
        (nl ++ py "🔍 TEMI RICORRENTI:")
        :: List.map (fun tema => py "   • " ++ str_value tema)
             (items (dict_get d (py "temi_ricorrenti") (VList [])))
      else [])
  ++ [nl ++ py "🔧 CONSIGLIO INGEGNERISTICO:";
      py "   " ++ str_value (dict_get d (py "consiglio_ingegneristico") NA);
      nl ++ py "📢 STRATEGIA MARKETING:";
      py "   " ++ str_value (dict_get d (py "strategia_marketing") NA)]
  ++ (if dict_has d (py "priorita_intervento") then
        (nl ++ py "🎯 PRIORITÀ DI INTERVENTO:")
        :: List.map (fun ip => py "   " ++ str_nat (fst ip) ++ py ". "
                               ++ str_value (snd ip))
             (enumerate 1 (items (dict_get d (py "priorita_intervento") (VList []))))
      else [])
  ++ [nl ++ banner ++ nl].

End Reading.

Section Outcomes.

Context {E : External}.

(** [m] changes nothing but the standard output. *)
Definition only_prints {A} (m : M A) : Prop :=
  forall st, exists out, snd (m st) = printed out st.

(** [m] changes nothing but the log. *)
Definition only_logs {A} (m : M A) : Prop :=
  forall st, exists records, snd (m st) = logged records st.


(** The exception of line 184 when [last_error] is still [None]. *)
Definition no_model_error : error :=
  Exception (py "Impossibile generare contenuto con nessun modello disponibile").

(** What the [except] clause of the entry point leaves: the record, the
    line, the status 1. *)
Definition main_failed (e : error) (st : state) : outcome Z * state :=
  (Ret 1%Z,
   printed [nl ++ py "❌ Errore: " ++ exn_str e]
     (logged [(ERROR, py "Errore durante l'esecuzione: " ++ exn_str e)] st)).

End Outcomes.

Arguments py : simpl never.
Arguments pyq : simpl never.
Arguments str_nat : simpl never.
Arguments fence : simpl never.

(** ** Facts about the string operations *)

Ltac literal t := let v := eval vm_compute in t in change t with v.

(** Runs the attempts of [H : match run_failures ... end] and leaves the
    derivation they stand for. *)
Ltac run_attempts H :=
  match type of H with
  | context [run_failures ?names ?prompt ?st] =>
      let v := eval vm_compute in (run_failures names prompt st) in
      replace (run_failures names prompt st) with v in H
        by (vm_compute; reflexivity)
  end;
  cbv beta iota delta [fst snd] in H.

Lemma eqb_eq (a b : pystr) : eqb a b = true <-> a = b.
Proof.
  revert b; induction a as [|x a IH]; intros [|y b]; simpl;
    try (split; [discriminate | discriminate]); try tauto.
  unfold char_eqb. rewrite andb_true_iff, N.eqb_eq, IH.
  split; [intros [-> ->]; reflexivity | intros H; inversion H; auto].
Qed.

Lemma eqb_refl (a : pystr) : eqb a a = true.
Proof. apply eqb_eq; reflexivity. Qed.

Lemma eqb_neq (a b : pystr) : eqb a b = false <-> a <> b.
Proof.
  rewrite <- eqb_eq. destruct (eqb a b); split; congruence.
Qed.

Lemma startswith_app (p s : pystr) : startswith (p ++ s) p = true.
Proof.
  induction p as [|x p IH]; simpl; [reflexivity|].
  unfold char_eqb; rewrite N.eqb_refl; exact IH.
Qed.

(** A character that is not in [sep] stops every occurrence of [sep]
    that starts before it. *)
Lemma startswith_barrier (sep a b : pystr) (x : char) :
  ~ In x sep -> startswith (a ++ x :: b) sep = true -> startswith a sep = true.
Proof.
  revert a; induction sep as [|s sep IH]; intros a Hx H; [reflexivity|].
  destruct a as [|c a]; simpl in *.
  - apply andb_true_iff in H as [H _]. apply N.eqb_eq in H. tauto.
  - apply andb_true_iff in H as [Hc H]. rewrite Hc; simpl.
    apply IH; [tauto | exact H].
Qed.

Lemma contains_barrier (sep a b : pystr) (x : char) :
  ~ In x sep -> sep <> [] ->
  contains a sep = false -> contains b sep = false ->
  contains (a ++ x :: b) sep = false.
Proof.
  intros Hx Hne Ha Hb. induction a as [|c a IH]; simpl in *.
  - destruct sep as [|s sep]; [congruence|].
    simpl in *. rewrite Hb, orb_false_r.
    apply andb_false_iff; left. apply N.eqb_neq. intros ->; tauto.
  - apply orb_false_iff in Ha as [Hs Ha].
    apply orb_false_iff; split; [|auto].
    destruct (startswith (c :: a ++ x :: b) sep) eqn:H; [|reflexivity].
    apply (startswith_barrier sep (c :: a) b x Hx) in H. congruence.
Qed.

Lemma partition_absent (s sep : pystr) :
  contains s sep = false -> partition s sep = None.
Proof.
  induction s as [|c s IH]; simpl; intros H;
    apply orb_false_iff in H as [Hs H]; rewrite Hs; [reflexivity|].
  rewrite (IH H); reflexivity.
Qed.

Lemma partition_prefix (s sep : pystr) :
  startswith s sep = true -> partition s sep = Some ([], skipn (length sep) s).
Proof. intros H. destruct s; simpl; rewrite H; reflexivity. Qed.

Lemma partition_here (sep rest : pystr) :
  partition (sep ++ rest) sep = Some ([], rest).
Proof.
  rewrite partition_prefix by apply startswith_app.
  rewrite skipn_app, skipn_all, Nat.sub_diag. reflexivity.
Qed.

(** The leftmost occurrence of [sep] in [a ++ x :: sep ++ rest] is the
    one written, when neither [a] nor [x] can hold or start one. *)
Lemma partition_leftmost (sep a rest : pystr) (x : char) :
  ~ In x sep -> sep <> [] -> contains a sep = false ->
  partition (a ++ x :: sep ++ rest) sep = Some (a ++ [x], rest).
Proof.
  intros Hx Hne Ha. induction a as [|c a IH].
  - simpl app.
    assert (Hfirst : startswith (x :: sep ++ rest) sep = false).
    { destruct sep as [|s sep]; [congruence|]. simpl.
      apply andb_false_iff; left. apply N.eqb_neq. intros ->. simpl in Hx; tauto. }
    simpl partition at 1. rewrite Hfirst, partition_here. reflexivity.
  - simpl in Ha. apply orb_false_iff in Ha as [Hs Ha].
    assert (Hc : startswith ((c :: a) ++ x :: sep ++ rest) sep = false).
    { destruct (startswith ((c :: a) ++ x :: sep ++ rest) sep) eqn:H; [|reflexivity].
      apply (startswith_barrier sep (c :: a) (sep ++ rest) x Hx) in H. congruence. }
    simpl app in *. simpl partition at 1. rewrite Hc, (IH Ha). reflexivity.
Qed.

Lemma split_fuel_S (n : nat) (s sep : pystr) :
  split_fuel (S n) s sep =
  match partition s sep with
  | None => [s]
  | Some (a, b) => a :: split_fuel n b sep
  end.
Proof. reflexivity. Qed.

Lemma replace_absent (s old new : pystr) :
  contains s old = false -> replace s old new = s.
Proof.
  intros H. unfold replace. destruct (length s); simpl; [reflexivity|].
  rewrite (partition_absent _ _ H); reflexivity.
Qed.

Lemma lstrip_space (c : char) (s : pystr) :
  isspace c = true -> lstrip (c :: s) = lstrip s.
Proof. intros H; simpl; rewrite H; reflexivity. Qed.

Lemma lstrip_stop (c : char) (s : pystr) :
  isspace c = false -> lstrip (c :: s) = c :: s.
Proof. intros H; simpl; rewrite H; reflexivity. Qed.

Lemma rstrip_space (s : pystr) (c : char) :
  isspace c = true -> rstrip (s ++ [c]) = rstrip s.
Proof.
  intros H. unfold rstrip. rewrite rev_app_distr; simpl. rewrite H; reflexivity.
Qed.

Lemma rstrip_stop (s : pystr) (c : char) :
  isspace c = false -> rstrip (s ++ [c]) = s ++ [c].
Proof.
  intros H. unfold rstrip. rewrite rev_app_distr; simpl. rewrite H.
  simpl. rewrite rev_involutive; reflexivity.
Qed.

(** Trailing whitespace does not survive [strip]. *)
Lemma strip_trailing_space (s : pystr) (c : char) :
  isspace c = true -> strip (s ++ [c]) = strip s.
Proof.
  intros H. unfold strip. induction s as [|x s IH]; simpl.
  - rewrite H; reflexivity.
  - destruct (isspace x) eqn:Hx; [exact IH|].
    change (x :: s ++ [c]) with ((x :: s) ++ [c]).
    apply rstrip_space; exact H.
Qed.

(** ** The fence-stripping step *)

Lemma fenced_shape (j : pystr) :
  fenced j = fence ++ (py "json" ++ 10%N :: j) ++ 10%N :: fence ++ [].
Proof.
  unfold fenced, nl, fence.
  literal (py "```json"); literal (py "```"); literal (py "json").
  simpl. repeat rewrite <- app_assoc. reflexivity.
Qed.

Lemma strip_fenced (j : pystr) : strip (fenced j) = fenced j.
Proof.
  unfold strip. replace (lstrip (fenced j)) with (fenced j).
  - unfold fenced. literal (py "```").
    change [96%N; 96%N; 96%N] with ([96%N; 96%N] ++ [96%N]).
    rewrite !app_assoc. apply rstrip_stop. reflexivity.
  - unfold fenced. literal (py "```json"). reflexivity.
Qed.

Lemma fence_absent_inside (j : pystr) :
  contains j fence = false ->
  contains (py "json" ++ 10%N :: j) fence = false
  /\ contains (10%N :: j ++ [10%N]) fence = false.
Proof.
  intros Hj.
  assert (Hbar : ~ In 10%N fence).
  { unfold fence; literal (py "```"); simpl; intros [H|[H|[H|[]]]]; discriminate. }
  assert (Hne : fence <> []) by (unfold fence; literal (py "```"); discriminate).
  split.
  - apply contains_barrier; auto.
  - change (10%N :: j ++ [10%N]) with ([] ++ 10%N :: j ++ 10%N :: []).
    apply contains_barrier; auto. apply contains_barrier; auto.
Qed.

Lemma split_fenced (j : pystr) :
  contains j fence = false ->
  nth_error (split (fenced j) fence) 1 = Some (py "json" ++ 10%N :: j ++ [10%N]).
Proof.
  intros Hj. destruct (fence_absent_inside j Hj) as [Hin _].
  assert (Hbar : ~ In 10%N fence).
  { unfold fence; literal (py "```"); simpl; intros [H|[H|[H|[]]]]; discriminate. }
  assert (Hne : fence <> []) by (unfold fence; literal (py "```"); discriminate).
  unfold split. rewrite fenced_shape.
  set (inner := py "json" ++ 10%N :: j) in *.
  assert (Hlen : exists n, length (fence ++ inner ++ 10%N :: fence ++ []) = S (S n)).
  { rewrite length_app. unfold fence at 1. literal (py "```"). simpl. eauto. }
  destruct Hlen as [n ->].
  rewrite split_fuel_S, partition_here, split_fuel_S.
  rewrite (@partition_leftmost fence inner [] 10%N Hbar Hne Hin).
  cbv beta iota. unfold nth_error. unfold inner. rewrite <- app_assoc. reflexivity.
Qed.

(** The step never meets the [IndexError] of [split(...)[1]]. *)
Lemma clean_response_total (t : pystr) : clean_response t <> None.
Proof.
  unfold clean_response. destruct (startswith t fence) eqn:Hs; [|discriminate].
  pose proof (partition_prefix t fence Hs) as Hcut.
  unfold split. destruct t as [|c t]; [vm_compute in Hs; discriminate Hs|].
  change (length (c :: t)) with (S (length t)).
  rewrite split_fuel_S, Hcut.
  destruct (length t); [cbn [split_fuel nth_error]; congruence|].
  rewrite split_fuel_S.
  destruct (partition (skipn _ _) fence) as [[a b']|]; cbn [nth_error]; congruence.
Qed.

(** C5 (amended).  For every text [j] that holds no triple backtick,
    the fence-stripping step applied to the trimmed reply
    ["```json\n" + j + "\n```"] yields [j.strip()], hence [j] itself when
    [j] has no outer whitespace. *)
Theorem clean_response_fenced (j : pystr) :
  contains j fence = false ->
  clean_response (strip (fenced j)) = Some (strip j)
  /\ (strip j = j -> clean_response (strip (fenced j)) = Some j).
Proof.
  intros Hj.
  assert (Hmain : clean_response (strip (fenced j)) = Some (strip j)).
  { rewrite strip_fenced. unfold clean_response.
    replace (startswith (fenced j) fence) with true
      by (rewrite fenced_shape; symmetry; apply startswith_app).
    rewrite (split_fenced j Hj).
    rewrite (startswith_app (py "json") (10%N :: j ++ [10%N])).
    change (skipn 4 (py "json" ++ 10%N :: j ++ [10%N])) with (10%N :: j ++ [10%N]).
    destruct (fence_absent_inside j Hj) as [_ Hout].
    rewrite (replace_absent _ _ [] Hout).
    change (10%N :: j ++ [10%N]) with ((10%N :: j) ++ [10%N]).
    rewrite strip_trailing_space by reflexivity.
    unfold strip. rewrite lstrip_space by reflexivity. reflexivity. }
  split; [exact Hmain | intros Hs; rewrite Hmain, Hs; reflexivity].
Qed.

Lemma clean_response_fenced_witness :
  contains (pyq "{'sentiment_score': 75}") fence = false
  /\ clean_response (strip (fenced (pyq "{'sentiment_score': 75}")))
     = Some (pyq "{'sentiment_score': 75}").
Proof.
  split; [reflexivity|].
  apply (clean_response_fenced (pyq "{'sentiment_score': 75}")); reflexivity.
Defined.

(** C5 (as stated) fails on a JSON text whose string value holds a triple
    backtick: the step cuts the text at that inner fence. *)
Lemma clean_response_fenced_inner_backticks :
  clean_response (strip (fenced (pyq "{'a': '```'}"))) = Some (pyq "{'a': '")
  /\ clean_response (strip (fenced (pyq "{'a': '```'}")))
     <> Some (strip (pyq "{'a': '```'}")).
Proof. split; [reflexivity | vm_compute; discriminate]. Qed.

(** ** Facts about the table and the list operations *)

Lemma has_column_getitem (df : DataFrame) (c : pystr) :
  has_column df c = true <-> exists col, df_getitem df c = Some col.
Proof.
  unfold has_column, df_columns.
  induction df as [|[name col] df IH]; simpl.
  - split; [discriminate | intros [col H]; discriminate].
  - destruct (eqb c name); simpl; [split; eauto | exact IH].
Qed.

Lemma has_column_absent (df : DataFrame) (c : pystr) :
  has_column df c = false <-> df_getitem df c = None.
Proof.
  pose proof (has_column_getitem df c) as H.
  destruct (has_column df c) eqn:Hh.
  - split; [discriminate|]. intros Hn.
    destruct (proj1 H eq_refl) as [col Hc]. congruence.
  - split; [|reflexivity]. intros _.
    destruct (df_getitem df c) as [col|] eqn:Hg; [|reflexivity].
    assert (Habs : false = true) by (apply H; eauto). discriminate Habs.
Qed.

(** Assigning to a column that exists leaves the header as it is. *)
Lemma df_columns_setitem (df : DataFrame) (c : pystr) (col : Series) :
  has_column df c = true -> df_columns (df_setitem df c col) = df_columns df.
Proof.
  unfold has_column, df_columns.
  induction df as [|[name old] df IH]; simpl; [discriminate|].
  destruct (eqb c name); simpl; intros H; [reflexivity|].
  rewrite (IH H); reflexivity.
Qed.

Lemma df_getitem_setitem_same (df : DataFrame) (c : pystr) (col : Series) :
  df_getitem (df_setitem df c col) c = Some col.
Proof.
  induction df as [|[name old] df IH]; simpl.
  - rewrite eqb_refl; reflexivity.
  - destruct (eqb c name) eqn:Hc; simpl; rewrite Hc; [reflexivity | exact IH].
Qed.

Lemma df_getitem_setitem_other (df : DataFrame) (c c' : pystr) (col : Series) :
  eqb c' c = false ->
  df_getitem (df_setitem df c col) c' = df_getitem df c'.
Proof.
  intros Hne. induction df as [|[name old] df IH]; simpl.
  - rewrite Hne; reflexivity.
  - destruct (eqb c name) eqn:Hc; simpl.
    + apply eqb_eq in Hc; subst name. rewrite Hne; reflexivity.
    + rewrite IH; reflexivity.
Qed.

Lemma slice_to_nonneg {A} (l : list A) (n : Z) :
  (0 <= n)%Z -> slice_to l n = firstn (Z.to_nat n) l.
Proof.
  intros H. unfold slice_to. destruct (Z.leb_spec 0 n); [reflexivity | lia].
Qed.




(** The comprehension keeps as many blocks as the slice has kept rows. *)
Lemma length_selected_from (l : list pystr) (start : nat) :
  length (filter (fun ir => kept (snd ir)) (enumerate start l))
  = length (filter kept l).
Proof.
  revert start; induction l as [|x l IH]; intros start; simpl; [reflexivity|].
  destruct (kept x); simpl; rewrite IH; reflexivity.
Qed.

Lemma length_blocks (l : list pystr) :
  length (blocks l) = length (filter kept l).
Proof.
  unfold blocks, selected. rewrite length_map. apply length_selected_from.
Qed.

(** The position a kept pair has in the slice, against the position its
    block has in the rendering. *)
Lemma selected_position_from (l : list pystr) (start k i : nat) (rev : pystr) :
  nth_error (filter (fun ir => kept (snd ir)) (enumerate start l)) k
    = Some (i, rev) ->
  start <= i /\ nth_error l (i - start) = Some rev /\ kept rev = true
  /\ i - start = k + length (filter (fun r => negb (kept r)) (firstn (i - start) l)).
Proof.
  revert start k; induction l as [|x l IH]; intros start k H; simpl in H.
  - destruct k; discriminate.
  - destruct (kept x) eqn:Hx; simpl in H.
    + destruct k as [|k]; simpl in H.
      * inversion H; subst. rewrite Nat.sub_diag. simpl. auto.
      * apply IH in H as (Hle & Hn & Hk & Hpos).
        replace (i - start) with (S (i - S start)) by lia.
        simpl. rewrite Hx. simpl. repeat split; auto; lia.
    + apply IH in H as (Hle & Hn & Hk & Hpos).
      replace (i - start) with (S (i - S start)) by lia.
      simpl. rewrite Hx. simpl. repeat split; auto; lia.
Qed.


(** ** The loader *)

Section Loader.

Context {E : External}.

Lemma has_column_setitem (df : DataFrame) (c c' : pystr) (col : Series) :
  has_column df c = true ->
  has_column (df_setitem df c col) c' = has_column df c'.
Proof.
  intros H. unfold has_column. rewrite df_columns_setitem by exact H. reflexivity.
Qed.

(** Which column is read: the override column as the table has it when
    the header names it and it is not [column_name]; the filled
    [column_name] column otherwise. *)
Lemma chosen_column_cases (df : DataFrame) (column_name : pystr) (data : Series) :
  df_getitem df column_name = Some data ->
  chosen_column df column_name =
  if has_column df (py "a-size-base 3")
     && negb (eqb (py "a-size-base 3") column_name)
  then df_getitem df (py "a-size-base 3")
  else Some (fillna_empty data).
Proof.
  intros Hdata. unfold chosen_column. rewrite Hdata. cbv zeta.
  assert (Hcol : has_column df column_name = true)
    by (apply has_column_getitem; eauto).
  rewrite has_column_setitem by exact Hcol.
  destruct (has_column df (py "a-size-base 3")) eqn:Ho; cbn [andb negb].
  - destruct (eqb (py "a-size-base 3") column_name) eqn:Heq; cbn [andb negb].
    + apply eqb_eq in Heq. rewrite Heq. apply df_getitem_setitem_same.
    + apply df_getitem_setitem_other; exact Heq.
  - apply df_getitem_setitem_same.
Qed.

Lemma chosen_column_some (df : DataFrame) (column_name : pystr) :
  has_column df column_name = true ->
  exists rows, chosen_column df column_name = Some rows.
Proof.
  intros Hcol. destruct (proj1 (has_column_getitem _ _) Hcol) as [data Hdata].
  rewrite (chosen_column_cases _ _ Hdata).
  destruct (has_column df (py "a-size-base 3")) eqn:Ho; cbn [andb]; [|eauto].
  destruct (negb _); [|eauto]. apply has_column_getitem; exact Ho.
Qed.

(** A run of the loader on a table that has [column_name]. *)
Lemma load_reviews_run (file_csv column_name : pystr) (max_reviews : Z)
    (st : state) (df : DataFrame) (rows : Series) :
  pd_read_csv file_csv (world st) = inl df ->
  has_column df column_name = true ->
  chosen_column df column_name = Some rows ->
  load_reviews file_csv max_reviews column_name st =
  (Ret (render (slice_to (astype_str rows) max_reviews),
        slice_to (astype_str rows) max_reviews),
   logged [(INFO, py "Preparate "
                  ++ str_nat (length (slice_to (astype_str rows) max_reviews))
                  ++ py " recensioni per l'analisi")]
     (logged [(INFO, py "Caricati " ++ str_nat (df_len df)
                     ++ py " record dal file CSV")] st)).
Proof.
  intros Hread Hcol Hrows.
  destruct (proj1 (has_column_getitem _ _) Hcol) as [data Hdata].
  unfold chosen_column in Hrows. rewrite Hdata in Hrows. cbv zeta in Hrows.
  unfold load_reviews, try_except, bind, read_column, logger, logged, ret, raise.
  rewrite Hread. cbn [world logs stdout calls]. rewrite Hcol. cbn [negb].
  rewrite Hdata.
  destruct (has_column (df_setitem df column_name (fillna_empty data))
              (py "a-size-base 3")); rewrite Hrows; reflexivity.
Qed.

(** A run of the loader on a table that lacks [column_name]. *)
Lemma load_reviews_missing (file_csv column_name : pystr) (max_reviews : Z)
    (st : state) (df : DataFrame) :
  pd_read_csv file_csv (world st) = inl df ->
  has_column df column_name = false ->
  fst (load_reviews file_csv max_reviews column_name st) =
  Raise (ValueError (py "Colonna '" ++ column_name
                     ++ py "' non trovata. Colonne disponibili: "
                     ++ join (py ", ") (df_columns df))).
Proof.
  intros Hread Hcol.
  unfold load_reviews, try_except, bind, read_column, logger, logged, ret, raise.
  rewrite Hread. cbn [world logs stdout calls]. rewrite Hcol. reflexivity.
Qed.

End Loader.

(** ** Which rows are rendered, and under which number *)





(** C10.  The [k]-th rendered block carries the number [i + 1], where [i]
    is the position of its row in the slice before filtering: [k] plus
    the number of rows left out before it.  A row that is left out gives
    its number to no block, so the numbering has gaps. *)
Theorem block_numbering (reviews_list : list pystr) :
  (forall k i rev,
     nth_error (selected reviews_list) k = Some (i, rev) ->
     nth_error reviews_list i = Some rev
     /\ nth_error (blocks reviews_list) k
        = Some (py "Recensione " ++ str_nat (i + 1) ++ py ": " ++ rev)
     /\ i = k + length (filter (fun r => negb (kept r)) (firstn i reviews_list)))
  /\ (forall i rev,
        nth_error reviews_list i = Some rev -> kept rev = false ->
        forall k r, nth_error (selected reviews_list) k <> Some (i, r))
  /\ render [py "ok"; []; py "also ok"]
     = py "Recensione 1: ok" ++ nl ++ nl ++ py "Recensione 3: also ok".
Proof.
  assert (Hpos : forall k i rev,
     nth_error (selected reviews_list) k = Some (i, rev) ->
     nth_error reviews_list i = Some rev /\ kept rev = true
     /\ i = k + length (filter (fun r => negb (kept r)) (firstn i reviews_list))).
  { intros k i rev H. unfold selected in H.
    apply selected_position_from in H as (_ & Hn & Hk & Hp).
    rewrite Nat.sub_0_r in *. auto. }
  split; [|split].
  - intros k i rev H. destruct (Hpos k i rev H) as (Hn & _ & Hp).
    repeat split; auto.
    unfold blocks. rewrite nth_error_map, H. reflexivity.
  - intros i rev Hn Hk k r H. destruct (Hpos k i r H) as (Hn' & Hk' & _).
    congruence.
  - reflexivity.
Qed.

Lemma block_numbering_witness :
  nth_error (blocks [py "ok"; []; py "also ok"]) 1
  = Some (py "Recensione " ++ str_nat (2 + 1) ++ py ": " ++ py "also ok").
Proof.
  destruct (block_numbering [py "ok"; []; py "also ok"]) as [H _].
  apply (H 1 2 (py "also ok")). reflexivity.
Defined.

(** ** The loader's contract *)

Section LoaderContract.

Context {E : External}.

(** On a table that has [column_name] the loader succeeds, and the rows
    it renders come from the override column when the header has one
    under another name, from the filled [column_name] column otherwise. *)
Lemma load_reviews_reads (file_csv column_name : pystr) (max_reviews : Z)
    (st : state) (df : DataFrame) :
  pd_read_csv file_csv (world st) = inl df ->
  has_column df column_name = true ->
  exists rows,
    fst (load_reviews file_csv max_reviews column_name st) =
    Ret (render (slice_to (astype_str rows) max_reviews),
         slice_to (astype_str rows) max_reviews)
    /\ (has_column df (py "a-size-base 3") = true ->
        py "a-size-base 3" <> column_name ->
        df_getitem df (py "a-size-base 3") = Some rows)
    /\ (has_column df (py "a-size-base 3") = false
        \/ py "a-size-base 3" = column_name ->
        exists data, df_getitem df column_name = Some data
                     /\ rows = fillna_empty data).
Proof.
  intros Hread Hcol.
  destruct (proj1 (has_column_getitem _ _) Hcol) as [data Hdata].
  destruct (chosen_column_some df column_name Hcol) as [rows Hrows].
  exists rows.
  rewrite (load_reviews_run file_csv column_name max_reviews st Hread Hcol Hrows).
  rewrite (chosen_column_cases _ _ Hdata) in Hrows.
  split; [reflexivity | split].
  - intros Ho Hne. apply eqb_neq in Hne.
    rewrite Ho, Hne in Hrows. exact Hrows.
  - intros Hcase. exists data. split; [exact Hdata|].
    destruct Hcase as [Ho | Heq].
    + rewrite Ho in Hrows. cbn [andb] in Hrows. congruence.
    + apply eqb_eq in Heq. rewrite Heq, andb_false_r in Hrows. congruence.
Qed.

(** C1 (amended).  On a table that [read_csv] parsed, the loader
    fails with a [ValueError] that names the available columns exactly
    when the header lacks the caller's [column_name], whether or not it
    has ['a-size-base 3'].  When the header has [column_name] the loader
    succeeds; it reads the ['a-size-base 3'] column if the header has
    one, and the [column_name] column otherwise. *)
Theorem load_reviews_schema (file_csv column_name : pystr) (max_reviews : Z)
    (st : state) (df : DataFrame) :
  pd_read_csv file_csv (world st) = inl df ->
  ((exists msg, fst (load_reviews file_csv max_reviews column_name st)
                = Raise (ValueError msg))
   <-> has_column df column_name = false)
  /\ (has_column df column_name = false ->
      fst (load_reviews file_csv max_reviews column_name st) =
      Raise (ValueError (py "Colonna '" ++ column_name
                         ++ py "' non trovata. Colonne disponibili: "
                         ++ join (py ", ") (df_columns df))))
  /\ (has_column df column_name = true ->
      exists rows,
        fst (load_reviews file_csv max_reviews column_name st) =
        Ret (render (slice_to (astype_str rows) max_reviews),
             slice_to (astype_str rows) max_reviews)
        /\ (has_column df (py "a-size-base 3") = true ->
            py "a-size-base 3" <> column_name ->
            df_getitem df (py "a-size-base 3") = Some rows)
        /\ (has_column df (py "a-size-base 3") = false
            \/ py "a-size-base 3" = column_name ->
            exists data, df_getitem df column_name = Some data
                         /\ rows = fillna_empty data)).
Proof.
  intros Hread.
  pose proof (load_reviews_reads file_csv column_name max_reviews st Hread) as Hok.
  split; [|split].
  - split.
    + intros [msg Hmsg]. destruct (has_column df column_name) eqn:Hcol; [|reflexivity].
      destruct (Hok eq_refl) as (rows & Hrun & _). congruence.
    + intros Hcol. eexists.
      apply (load_reviews_missing file_csv column_name max_reviews st Hread Hcol).
  - apply load_reviews_missing; exact Hread.
  - exact Hok.
Qed.


End LoaderContract.

Lemma load_reviews_schema_witness :
  exists rows,
    fst (load_reviews (py "recensioni.csv") 50 (py "body")
           (Demo.of_table Demo.reviews_table))
    = Ret (render (slice_to (astype_str rows) 50), slice_to (astype_str rows) 50)
    /\ df_getitem Demo.reviews_table (py "body") = Some [Val (py "ok"); NaN; Val (py "also ok")]
    /\ rows = fillna_empty [Val (py "ok"); NaN; Val (py "also ok")].
Proof.
  destruct (@load_reviews_schema Demo.ext (py "recensioni.csv") (py "body") 50
              (Demo.of_table Demo.reviews_table) Demo.reviews_table eq_refl)
    as (_ & _ & Hok).
  destruct (Hok eq_refl) as (rows & Hrun & _ & Hown).
  destruct (Hown (or_introl eq_refl)) as (data & Hdata & Hrows).
  exists rows. split; [exact Hrun|]. split; [reflexivity|].
  rewrite Hrows. f_equal. vm_compute in Hdata. inversion Hdata. reflexivity.
Defined.

(** C1 (as stated) fails on a header that has ['a-size-base 3'] and not
    the requested ['body']: the loader raises instead of reading the
    override column. *)
Lemma load_reviews_override_alone :
  has_column Demo.override_only (py "a-size-base 3") = true
  /\ has_column Demo.override_only (py "body") = false
  /\ fst (load_reviews (py "recensioni.csv") 50 (py "body")
            (Demo.of_table Demo.override_only))
     = Raise (ValueError
         (py "Colonna 'body' non trovata. Colonne disponibili: a-size-base 3")).
Proof. repeat split. Qed.



(** The filter of line 72 keeps exactly the usable rows. *)
Lemma kept_usable (rev : pystr) : kept rev = usable rev.
Proof.
  unfold kept, usable. destruct (strip rev); reflexivity.
Qed.

Lemma usable_iff (rev : pystr) :
  usable rev = true <-> strip rev <> [] /\ rev <> py "nan".
Proof.
  unfold usable. rewrite andb_true_iff, !negb_true_iff, !eqb_neq. tauto.
Qed.

(** The rows the comprehension goes through are the usable rows of the
    slice, in their order. *)
Lemma selected_rows_from (l : list pystr) (start : nat) :
  List.map snd (filter (fun ir => kept (snd ir)) (enumerate start l))
  = filter usable l.
Proof.
  revert start; induction l as [|x l IH]; intros start; [reflexivity|].
  cbn [enumerate filter snd]. rewrite <- kept_usable.
  destruct (kept x); cbn [List.map snd]; rewrite IH; reflexivity.
Qed.

Section BatchSize.

Context {E : External}.

(** C2 (amended).  A row is usable when its trimmed text is not empty
    and its text, untrimmed, is not [nan].  When the column read has
    fewer than [max_reviews] usable rows, the rendering has one block for
    each usable row among the first [max_reviews] rows, those rows in
    their order and no other (the filter runs on the slice), and the
    number the prompt shows for [numero_recensioni_analizzate] is the
    length of the slice, [min(row_count, max_reviews)], whatever the
    filter then leaves out. *)
Theorem rendered_count_and_batch_size (file_csv column_name : pystr)
    (max_reviews : Z) (st : state) (df : DataFrame) (rows : Series) :
  os_path_exists file_csv (world st) = true ->
  pd_read_csv file_csv (world st) = inl df ->
  has_column df column_name = true ->
  chosen_column df column_name = Some rows ->
  (Z.of_nat (length (filter usable (astype_str rows))) < max_reviews)%Z ->
  let reviews_list := firstn (Z.to_nat max_reviews) (astype_str rows) in
  exists st1,
    analizza_dati file_csv max_reviews column_name st
    = try_models model_names
        (prompt_head
         ++ str_nat (Nat.min (length rows) (Z.to_nat max_reviews))
         ++ prompt_mid
         ++ join (nl ++ nl) (blocks reviews_list)
         ++ prompt_tail) st1
    /\ length (blocks reviews_list) = length (filter usable reviews_list)
    /\ List.map snd (selected reviews_list) = filter usable reviews_list
    /\ length reviews_list = Nat.min (length rows) (Z.to_nat max_reviews).
Proof.
  intros Hfile Hread Hcol Hrows Hfew reviews_list.
  assert (Hmax : (0 <= max_reviews)%Z) by lia.
  assert (Hlen : length reviews_list
                 = Nat.min (length rows) (Z.to_nat max_reviews)).
  { unfold reviews_list, astype_str.
    rewrite length_firstn, length_map. apply Nat.min_comm. }
  assert (Hsel : List.map snd (selected reviews_list) = filter usable reviews_list)
    by apply selected_rows_from.
  set (st0 := logged [(INFO, py "Inizio analisi del file: " ++ file_csv)] st).
  assert (Hrun := @load_reviews_run E file_csv column_name max_reviews st0
                    df rows Hread Hcol Hrows).
  rewrite (slice_to_nonneg _ Hmax) in Hrun. fold reviews_list in Hrun.
  eexists. split; [|split; [|split; [exact Hsel | exact Hlen]]].
  - unfold analizza_dati, bind at 1, logger at 1.
    fold st0. unfold bind at 1.
    change (world st0) with (world st). rewrite Hfile. cbn [negb].
    unfold bind at 1. rewrite Hrun. cbn [fst snd].
    unfold build_prompt, render. rewrite Hlen. reflexivity.
  - unfold blocks. rewrite length_map, <- Hsel, length_map. reflexivity.
Qed.

End BatchSize.

Lemma rendered_count_and_batch_size_witness :
  let rows := fillna_empty [Val (py "ok"); NaN; Val (py "also ok")] in
  let reviews_list := firstn (Z.to_nat 50) (astype_str rows) in
  exists st1,
    analizza_dati (py "recensioni.csv") 50 (py "body")
      (Demo.of_table Demo.reviews_table)
    = try_models model_names
        (prompt_head
         ++ str_nat (Nat.min (length rows) (Z.to_nat 50))
         ++ prompt_mid
         ++ join (nl ++ nl) (blocks reviews_list)
         ++ prompt_tail) st1
    /\ length (blocks reviews_list) = length (filter usable reviews_list)
    /\ List.map snd (selected reviews_list) = filter usable reviews_list
    /\ length reviews_list = Nat.min (length rows) (Z.to_nat 50).
Proof.
  intros rows.
  apply (@rendered_count_and_batch_size Demo.ext
           (py "recensioni.csv") (py "body") 50
           (Demo.of_table Demo.reviews_table) Demo.reviews_table rows);
    vm_compute; reflexivity.
Defined.

(** C2 (as stated) fails whichever way its usable rows are read.  With
    the trimmed text for both tests, as section 4.1 words them, the
    column whose only row is [" nan "] has no usable row, fewer than 50,
    and the loader renders one block.  With the text as it stands for
    both tests, the column whose only row is three spaces has one usable
    row, fewer than 50, and the loader renders no block. *)
Lemma padded_nan_is_counted :
  (length (filter spec_usable (astype_str [Val (py " nan ")])) = 0
   /\ fst (load_reviews (py "recensioni.csv") 50 (py "body")
             (Demo.of_table Demo.padded_nan))
      = Ret (py "Recensione 1:  nan ", [py " nan "])
   /\ length (blocks [py " nan "]) = 1
   /\ length (blocks [py " nan "]) <> length (filter spec_usable [py " nan "]))
  /\ (length (filter spec_usable_verbatim (astype_str [Val (py "   ")])) = 1
      /\ fst (load_reviews (py "recensioni.csv") 50 (py "body")
                (Demo.of_table Demo.blank_row))
         = Ret ([], [py "   "])
      /\ length (blocks [py "   "]) = 0
      /\ length (blocks [py "   "])
         <> length (filter spec_usable_verbatim [py "   "])).
Proof.
  split; (split; [vm_compute; reflexivity|]);
    (split; [vm_compute; reflexivity|]);
    (split; [vm_compute; reflexivity|]); vm_compute; discriminate.
Qed.

(** The two counts of C2 differ on the table of the witness: three rows
    are counted, two are rendered. *)
Example batch_size_counts_filtered_rows :
  let reviews_list :=
    firstn (Z.to_nat 50)
      (astype_str (fillna_empty [Val (py "ok"); NaN; Val (py "also ok")])) in
  length reviews_list = 3 /\ length (blocks reviews_list) = 2.
Proof. split; reflexivity. Qed.

(** ** The fallback loop *)

Section Fallback.

Context {E : External}.

Lemma record_failure_run (m : pystr) (e : error) (st : state) :
  exists records,
    record_failure m e st = (Ret (recorded e), logged records st).
Proof.
  unfold record_failure, recorded, bind, logger, ret, logged.
  destruct e; cbn [world logs stdout calls]; eexists;
    try reflexivity.
  rewrite <- app_assoc. reflexivity.
Qed.

(** Every attempt asks the service once, for its own model. *)
Lemma try_model_calls (m prompt : pystr) (st st1 : state) (r : outcome value) :
  try_model m prompt st = (r, st1) -> calls st1 = calls st ++ [m].
Proof.
  unfold try_model, bind, logger, logged, generate_content, ret, raise.
  cbn [world logs stdout calls].
  destruct (if USE_NEW_API then _ else _) as [[[text|]|e] w];
    cbn [world logs stdout calls];
    try (intros H; inversion H; reflexivity).
  destruct (clean_response (strip text)) as [doc|];
    [|intros H; inversion H; reflexivity].
  destruct (json_loads doc); intros H; inversion H; reflexivity.
Qed.

(** An attempt whose reply cleans to a document that parses. *)
Lemma try_model_parsed (m prompt text doc : pystr) (v : value)
    (st : state) (w : World) :
  service_call m prompt (world st) = (inl (Some text), w) ->
  clean_response (strip text) = Some doc ->
  json_loads doc = inl v ->
  exists st1, try_model m prompt st = (Ret v, st1)
              /\ calls st1 = calls st ++ [m].
Proof.
  unfold service_call. intros Hcall Hclean Hloads.
  unfold try_model, bind, logger, logged, generate_content, ret, raise.
  cbn [world logs stdout calls]. rewrite Hcall.
  cbn [world logs stdout calls]. rewrite Hclean, Hloads.
  eexists; split; reflexivity.
Qed.

(** The ways an attempt fails: the service raises, the response has no
    text, or the cleaned reply does not parse.  The [IndexError] of the
    cleaning step never occurs. *)
Lemma try_model_raises (m prompt : pystr) (st st1 : state) (e : error) :
  try_model m prompt st = (Raise e, st1) ->
  (exists le w, service_call m prompt (world st) = (inr le, w)
                /\ e = LibError le)
  \/ (exists w, service_call m prompt (world st) = (inl None, w)
                /\ e = AttributeError
                         (py "'NoneType' object has no attribute 'strip'"))
  \/ (exists text w doc msg,
        service_call m prompt (world st) = (inl (Some text), w)
        /\ clean_response (strip text) = Some doc
        /\ json_loads doc = inr msg
        /\ e = JSONDecodeError msg doc).
Proof.
  unfold service_call, try_model, bind, logger, logged, generate_content, ret, raise.
  cbn [world logs stdout calls].
  destruct (if USE_NEW_API then _ else _) as [[[text|]|le] w];
    cbn [world logs stdout calls].
  - pose proof (clean_response_total (strip text)) as Htotal.
    destruct (clean_response (strip text)) as [doc|] eqn:Hclean; [|congruence].
    destruct (json_loads doc) as [v|msg] eqn:Hloads; intros H; inversion H.
    right; right. exists text, w, doc, msg. auto.
  - intros H; inversion H. right; left. exists w. split; reflexivity.
  - intros H; inversion H. left. exists le, w. split; reflexivity.
Qed.

Lemma failures_calls (prompt : pystr) (names : list pystr) (st st' : state)
    (es : list error) :
  failures prompt names st es st' ->
  calls st' = calls st ++ names /\ length es = length names.
Proof.
  induction 1 as [st | m ms st st1 st2 st3 e le es Htry Hrec _ [IHc IHl]].
  - rewrite app_nil_r; auto.
  - destruct (record_failure_run m e st1) as [records Hrun].
    rewrite Hrun in Hrec. inversion Hrec; subst.
    rewrite IHc. cbn [logged calls]. rewrite (try_model_calls _ _ _ Htry).
    rewrite <- app_assoc. simpl. auto.
Qed.

(** The loop over candidates that all fail ends with the error of the
    last one in [last_error]. *)
Lemma for_model_names_failures (prompt : pystr) (names : list pystr)
    (st st' : state) (es : list error) :
  failures prompt names st es st' ->
  forall last_error,
    for_model_names names prompt last_error st =
    (Ret (inr (fold_left (fun _ e => Some (recorded e)) es last_error)), st').
Proof.
  induction 1 as [st | m ms st st1 st2 st3 e le es Htry Hrec _ IH];
    intros last_error; [reflexivity|].
  cbn [for_model_names fold_left]. rewrite Htry. unfold bind at 1. rewrite Hrec.
  destruct (record_failure_run m e st1) as [records Hrun].
  rewrite Hrun in Hrec. inversion Hrec; subst. apply IH.
Qed.

(** The loop over candidates that fail, then one that succeeds. *)
Lemma for_model_names_success (prompt : pystr) (pre : list pystr)
    (st st1 : state) (es : list error) :
  failures prompt pre st es st1 ->
  forall m rest v st2 last_error,
    try_model m prompt st1 = (Ret v, st2) ->
    for_model_names (pre ++ m :: rest) prompt last_error st = (Ret (inl v), st2).
Proof.
  induction 1 as [st | m0 ms st st1 st2 st3 e le es Htry Hrec _ IH];
    intros m rest v st4 last_error Hok.
  - cbn [app for_model_names]. rewrite Hok. reflexivity.
  - cbn [app for_model_names]. rewrite Htry. unfold bind at 1. rewrite Hrec.
    apply IH; exact Hok.
Qed.

Lemma run_failures_sound (names : list pystr) (prompt : pystr) (st : state) :
  match run_failures names prompt st with
  | Some r => failures prompt names st (fst r) (snd r)
  | None => True
  end.
Proof.
  revert st; induction names as [|m ms IH]; intros st; cbn [run_failures].
  - constructor.
  - destruct (try_model m prompt st) as [[v|e] st1] eqn:Htry; [exact I|].
    destruct (record_failure m e st1) as [[le|e'] st2] eqn:Hrec; [|exact I].
    specialize (IH st2).
    destruct (run_failures ms prompt st2) as [[es st3]|]; [|exact I].
    cbn [fst snd] in *. econstructor; eassumption.
Qed.

Lemma fold_left_last (es : list error) (last_error : option error) (d : error) :
  fold_left (fun _ e => Some (recorded e)) es last_error =
  match es with
  | [] => last_error
  | _ :: _ => Some (last (map recorded es) d)
  end.
Proof.
  revert last_error; induction es as [|e es IH]; intros last_error; [reflexivity|].
  cbn [fold_left]. rewrite IH. destruct es; reflexivity.
Qed.

End Fallback.

Section FallbackContract.

Context {E : External}.

(** C3.  When every candidate fails, the invoker raises what the last
    attempt left in [last_error]: the exception of the last attempted
    model, as a [ValueError] around the decoder's message when that
    attempt failed to parse, and never that of an earlier model.  The
    generic exhaustion error is raised only when nothing was recorded,
    which takes an empty candidate list. *)
Theorem all_candidates_fail (prompt : pystr) (names : list pystr)
    (st st' : state) (es : list error) :
  failures prompt names st es st' ->
  try_models names prompt st =
  (Raise (last (map recorded es)
            (Exception
               (py "Impossibile generare contenuto con nessun modello disponibile"))),
   logged [(ERROR, py "Tutti i modelli hanno fallito")] st')
  /\ length es = length names
  /\ (forall es' msg doc,
        es = es' ++ [JSONDecodeError msg doc] ->
        fst (try_models names prompt st) =
        Raise (ValueError (py "Risposta API non valida. Errore JSON: " ++ msg)))
  /\ (forall es' e,
        es = es' ++ [LibError e] ->
        fst (try_models names prompt st) = Raise (LibError e)).
Proof.
  intros Hfail.
  set (generic := Exception
         (py "Impossibile generare contenuto con nessun modello disponibile")).
  assert (Hrun : try_models names prompt st =
                 (Raise (last (map recorded es) generic),
                  logged [(ERROR, py "Tutti i modelli hanno fallito")] st')).
  { unfold try_models, bind at 1.
    rewrite (for_model_names_failures Hfail None).
    rewrite (fold_left_last es None generic).
    unfold bind, logger, raise, logged. destruct es; reflexivity. }
  split; [exact Hrun|]. split; [apply (failures_calls Hfail)|].
  split; intros es' ? ; intros; subst es; rewrite Hrun; cbn [fst];
    rewrite map_app; cbn [map]; rewrite last_last; reflexivity.
Qed.

(** C4.  When the candidates before [m] fail and the reply of [m] cleans
    to a document that parses, the invoker returns that parsed value and
    has asked the service for the failed candidates and [m] only: no
    later candidate is tried.  With one candidate before [m] this is the
    first model failing and the second succeeding. *)
Theorem first_success_returns (prompt : pystr) (pre rest : list pystr)
    (m text doc : pystr) (v : value) (st st1 : state) (es : list error)
    (w : World) :
  failures prompt pre st es st1 ->
  service_call m prompt (world st1) = (inl (Some text), w) ->
  clean_response (strip text) = Some doc ->
  json_loads doc = inl v ->
  exists st2,
    try_models (pre ++ m :: rest) prompt st = (Ret v, st2)
    /\ calls st2 = calls st ++ pre ++ [m].
Proof.
  intros Hfail Hcall Hclean Hloads.
  destruct (try_model_parsed m prompt st1 Hcall Hclean Hloads) as (st2 & Hok & Hc).
  exists st2. split.
  - unfold try_models, bind.
    rewrite (for_model_names_success Hfail m rest None Hok). reflexivity.
  - rewrite Hc. destruct (failures_calls Hfail) as [-> _].
    rewrite <- app_assoc. reflexivity.
Qed.

End FallbackContract.

Lemma all_candidates_fail_witness :
  fst (try_models model_names (py "prompt") Demo.last_is_not_json) =
  Raise (ValueError
           (py "Risposta API non valida. Errore JSON: Expecting value: line 1 column 1 (char 0)")).
Proof.
  pose proof (@run_failures_sound Demo.ext model_names (py "prompt")
                Demo.last_is_not_json) as Hfail.
  run_attempts Hfail.
  destruct (all_candidates_fail Hfail) as (_ & _ & Hjson & _).
  match type of Hfail with
  | failures _ _ _ ?es _ =>
      assert (Hlast : es =
                repeat (LibError (py "404 model not found")) 4
                ++ [JSONDecodeError (py "Expecting value: line 1 column 1 (char 0)")
                      (py "I cannot answer")])
        by (vm_compute; reflexivity)
  end.
  rewrite (Hjson _ _ _ Hlast). vm_compute. reflexivity.
Defined.

Lemma first_success_returns_witness :
  exists st2,
    try_models model_names (py "prompt") Demo.second_answers = (Ret (VDict []), st2)
    /\ calls st2 = calls Demo.second_answers
                   ++ [py "models/gemini-2.5-flash"] ++ [py "models/gemini-2.0-flash"].
Proof.
  pose proof (@run_failures_sound Demo.ext [py "models/gemini-2.5-flash"]
                (py "prompt") Demo.second_answers) as Hfail.
  run_attempts Hfail.
  match type of Hfail with
  | failures _ _ _ _ ?st1 =>
      assert (Hcall : service_call (py "models/gemini-2.0-flash") (py "prompt")
                        (world st1)
                      = (inl (Some (py "```json" ++ nl ++ py "{}" ++ nl ++ py "```")),
                         world Demo.second_answers))
        by (vm_compute; reflexivity)
  end.
  assert (Hclean : clean_response
                     (strip (py "```json" ++ nl ++ py "{}" ++ nl ++ py "```"))
                   = Some (py "{}")) by (vm_compute; reflexivity).
  assert (Hloads : @json_loads Demo.ext (py "{}") = inl (VDict []))
    by (vm_compute; reflexivity).
  exact (@first_success_returns Demo.ext _ _
           [py "models/gemini-flash-latest"; py "models/gemini-2.5-pro";
            py "models/gemini-pro-latest"] _ _ _ _ _ _ _ _
           Hfail Hcall Hclean Hloads).
Defined.

(** ** Saving *)

Section Saving.

Context {E : External}.

Lemma salva_risultati_run (risultato : value) (output_file : pystr) (st : state) :
  match write_json risultato output_file st with
  | (Ret _, st1) =>
      salva_risultati risultato output_file st =
      (Ret tt, logged [(INFO, py "Risultati salvati in: " ++ output_file)] st1)
  | (Raise e, st1) =>
      salva_risultati risultato output_file st =
      (Ret tt, logged [(ERROR, py "Errore nel salvataggio dei risultati: "
                               ++ exn_str e)] st1)
  end.
Proof.
  unfold salva_risultati, try_except, bind.
  destruct (write_json risultato output_file st) as [[[]|e] st1]; reflexivity.
Qed.



End Saving.


(** ** The report *)

Section Report.

Context {E : External}.

Lemma printed_printed (a b : list pystr) (st : state) :
  printed b (printed a st) = printed (a ++ b) st.
Proof. unfold printed; cbn. rewrite app_assoc. reflexivity. Qed.

Lemma printed_nil (st : state) : printed [] st = st.
Proof. destruct st; unfold printed; cbn. rewrite app_nil_r. reflexivity. Qed.

Lemma bind_print {B} (line : pystr) (k : unit -> M B) (st : state) :
  bind (print line) k st = k tt (printed [line] st).
Proof. reflexivity. Qed.

Lemma bind_ret {A B} (a : A) (k : A -> M B) (st : state) :
  bind (ret a) k st = k a st.
Proof. reflexivity. Qed.

Lemma for_each_printed {A} (l : list A) (body : A -> M unit)
    (f : A -> list pystr) :
  (forall x st, body x st = (Ret tt, printed (f x) st)) ->
  forall st, for_each l body st = (Ret tt, printed (concat (List.map f l)) st).
Proof.
  intros Hbody. induction l as [|x l IH]; intros st; cbn [for_each map concat].
  - rewrite printed_nil. reflexivity.
  - unfold bind. rewrite Hbody, IH, printed_printed. reflexivity.
Qed.

Lemma iter_iterable (v : value) :
  iterable v = true -> iter v = ret (items v).
Proof. destruct v; cbn; intros H; try discriminate; reflexivity. Qed.

Lemma dict_get_absent (d : dict) (k : pystr) (default : value) :
  dict_has d k = false -> dict_get d k default = default.
Proof.
  unfold dict_has. induction d as [|[k' v] d IH]; cbn; [reflexivity|].
  destruct (eqb k k'); cbn; [discriminate | exact IH].
Qed.

Lemma dict_get_present (d : dict) (k : pystr) (a b : value) :
  dict_has d k = true -> dict_get d k a = dict_get d k b.
Proof.
  unfold dict_has. induction d as [|[k' v] d IH]; cbn; [discriminate|].
  destruct (eqb k k'); cbn; [reflexivity | exact IH].
Qed.

Lemma concat_map_singleton {A} (f : A -> pystr) (l : list A) :
  concat (List.map (fun x => [f x]) l) = List.map f l.
Proof. induction l as [|x l IH]; cbn; [|rewrite IH]; reflexivity. Qed.

(** A run of the sections on a result whose list fields can be iterated
    over: nothing is raised and [sezioni_lines] is what gets printed. *)
Lemma stampa_sezioni_run (d : dict) (st : state) :
  fields_iterable d ->
  stampa_sezioni d st = (Ret tt, printed (sezioni_lines d) st).
Proof.
  intros Hwf.
  assert (Hp : iterable (dict_get d (py "punti_critici") (VList [])) = true)
    by (apply Hwf; left; reflexivity).
  assert (Hv : iterable (dict_get d (py "vantaggi_competitivi") (VList [])) = true)
    by (apply Hwf; right; left; reflexivity).
  assert (Ht : iterable (dict_get d (py "temi_ricorrenti") (VList [])) = true)
    by (apply Hwf; do 2 right; left; reflexivity).
  assert (Hr : iterable (dict_get d (py "priorita_intervento") (VList [])) = true)
    by (apply Hwf; do 3 right; left; reflexivity).
  unfold stampa_sezioni, sezioni_lines.
  rewrite !bind_print.
  rewrite (iter_iterable _ Hp), bind_ret.
  unfold bind at 1.
  rewrite (for_each_printed _ _ punto_lines)
    by (intros [i [|b|z|f|t|l|p]] st0; cbn [fst snd punto_lines];
        unfold bind, print; rewrite ?printed_printed; reflexivity).
  rewrite bind_print, (iter_iterable _ Hv), bind_ret.
  unfold bind at 1.
  rewrite (for_each_printed _ _ vantaggio_lines)
    by (intros [i [|b|z|f|t|l|p]] st0; cbn [fst snd vantaggio_lines]; reflexivity).
  unfold bind at 1.
  assert (Htemi : forall s,
    (if dict_has d (py "temi_ricorrenti")
     then bind (print (nl ++ py "🔍 TEMI RICORRENTI:"))
            (fun _ => bind (dict_getitem d (py "temi_ricorrenti"))
               (fun v => bind (iter v)
                  (fun temi => for_each temi
                     (fun tema => print (py "   • " ++ str_value tema)))))
     else ret tt) s
    = (Ret tt, printed
         (if dict_has d (py "temi_ricorrenti") then
            (nl ++ py "🔍 TEMI RICORRENTI:")
            :: List.map (fun tema => py "   • " ++ str_value tema)
                 (items (dict_get d (py "temi_ricorrenti") (VList [])))
          else []) s)).
  { intros s. unfold dict_getitem.
    destruct (dict_has d (py "temi_ricorrenti")) eqn:Hhas.
    - rewrite bind_print, bind_ret.
      rewrite (dict_get_present d _ VNone (VList []) Hhas).
      rewrite (iter_iterable _ Ht), bind_ret.
      rewrite (for_each_printed _ _ (fun tema => [py "   • " ++ str_value tema]))
        by reflexivity.
      rewrite printed_printed, concat_map_singleton. reflexivity.
    - unfold ret. rewrite printed_nil. reflexivity. }
  rewrite Htemi. rewrite !bind_print.
  unfold bind at 1.
  assert (Hprio : forall s,
    (if dict_has d (py "priorita_intervento")
     then bind (print (nl ++ py "🎯 PRIORITÀ DI INTERVENTO:"))
            (fun _ => bind (dict_getitem d (py "priorita_intervento"))
               (fun v => bind (iter v)
                  (fun priorita => for_each (enumerate 1 priorita)
                     (fun ip => print (py "   " ++ str_nat (fst ip) ++ py ". "
                                       ++ str_value (snd ip))))))
     else ret tt) s
    = (Ret tt, printed
         (if dict_has d (py "priorita_intervento") then
            (nl ++ py "🎯 PRIORITÀ DI INTERVENTO:")
            :: List.map (fun ip => py "   " ++ str_nat (fst ip) ++ py ". "
                                   ++ str_value (snd ip))
                 (enumerate 1 (items (dict_get d (py "priorita_intervento") (VList []))))
          else []) s)).
  { intros s. unfold dict_getitem.
    destruct (dict_has d (py "priorita_intervento")) eqn:Hhas.
    - rewrite bind_print, bind_ret.
      rewrite (dict_get_present d _ VNone (VList []) Hhas).
      rewrite (iter_iterable _ Hr), bind_ret.
      rewrite (for_each_printed _ _
                 (fun ip => [py "   " ++ str_nat (fst ip) ++ py ". "
                             ++ str_value (snd ip)]))
        by reflexivity.
      rewrite printed_printed, concat_map_singleton. reflexivity.
    - unfold ret. rewrite printed_nil. reflexivity. }
  rewrite Hprio. unfold print.
  rewrite !printed_printed. cbn [app]. rewrite <- ?app_assoc. cbn [app].
  reflexivity.
Qed.

(** A line differs from a header as soon as their first four characters
    do. *)
Ltac differs :=
  let H := fresh "H" in
  intros H; apply (f_equal (firstn 4)) in H; vm_compute in H; discriminate H.

Lemma Forall_map_all {A} (P : pystr -> Prop) (f : A -> pystr) (l : list A) :
  (forall x, P (f x)) -> Forall P (List.map f l).
Proof. intros H. induction l; cbn; constructor; auto. Qed.

Lemma Forall_concat_map_all {A} (P : pystr -> Prop) (f : A -> list pystr)
    (l : list A) :
  (forall x, Forall P (f x)) -> Forall P (concat (List.map f l)).
Proof.
  intros H. induction l; cbn; [constructor|]. apply Forall_app; auto.
Qed.

Lemma punto_lines_plain (h : pystr) :
  firstn 1 h = nl -> forall ip, Forall (fun l => l <> h) (punto_lines ip).
Proof.
  intros Hh [i v]. unfold punto_lines; cbn [fst snd].
  destruct v; repeat constructor; intros H; rewrite <- H in Hh;
    vm_compute in Hh; discriminate Hh.
Qed.

Lemma vantaggio_lines_plain (h : pystr) :
  firstn 1 h = nl -> forall iv, Forall (fun l => l <> h) (vantaggio_lines iv).
Proof.
  intros Hh [i v]. unfold vantaggio_lines; cbn [fst snd].
  destruct v; repeat constructor; intros H; rewrite <- H in Hh;
    vm_compute in Hh; discriminate Hh.
Qed.

(** The two optional headers occur in the report only as the heads of
    their own sections. *)
Lemma header_occurrences (d : dict) :
  (In (nl ++ py "🔍 TEMI RICORRENTI:") (sezioni_lines d)
   <-> dict_has d (py "temi_ricorrenti") = true)
  /\ (In (nl ++ py "🎯 PRIORITÀ DI INTERVENTO:") (sezioni_lines d)
      <-> dict_has d (py "priorita_intervento") = true).
Proof.
  assert (Hmain : forall h,
    firstn 1 h = nl ->
    nl ++ py "🎯 Sentiment Score: " <> firstn 20 h ->
    h <> nl ++ py "⚠️  PUNTI CRITICI:" ->
    h <> nl ++ py "✅ VANTAGGI COMPETITIVI:" ->
    h <> nl ++ py "🔧 CONSIGLIO INGEGNERISTICO:" ->
    h <> nl ++ py "📢 STRATEGIA MARKETING:" ->
    h <> nl ++ banner ++ nl ->
    In h (sezioni_lines d) ->
    (dict_has d (py "temi_ricorrenti") = true /\ h = nl ++ py "🔍 TEMI RICORRENTI:")
    \/ (dict_has d (py "priorita_intervento") = true
        /\ h = nl ++ py "🎯 PRIORITÀ DI INTERVENTO:")).
  { intros h Hnl Hscore H1 H2 H3 H4 H5 Hin.
    assert (Hsp : forall t, py "   " ++ t <> h).
    { intros t H. rewrite <- H in Hnl. vm_compute in Hnl. discriminate Hnl. }
    unfold sezioni_lines in Hin.
    repeat (apply in_app_or in Hin; destruct Hin as [Hin|Hin]).
    - cbn [In] in Hin. destruct Hin as [H|[H|[H|[H|[]]]]].
      + exfalso. apply Hscore. rewrite <- H.
        rewrite app_assoc. change 20 with (length (nl ++ py "🎯 Sentiment Score: ") + 0).
        rewrite firstn_app_2. cbn [firstn]. rewrite app_nil_r. reflexivity.
      + rewrite <- H in Hnl. vm_compute in Hnl. discriminate Hnl.
      + rewrite <- H in Hnl. vm_compute in Hnl. discriminate Hnl.
      + congruence.
    - exfalso. pose proof (@Forall_concat_map_all _ _ _
        (enumerate 1 (items (dict_get d (py "punti_critici") (VList []))))
        (punto_lines_plain h Hnl)) as Hall.
      rewrite Forall_forall in Hall. exact (Hall _ Hin eq_refl).
    - cbn [In] in Hin. destruct Hin as [H|[]]. congruence.
    - exfalso. pose proof (@Forall_concat_map_all _ _ _
        (enumerate 1 (items (dict_get d (py "vantaggi_competitivi") (VList []))))
        (vantaggio_lines_plain h Hnl)) as Hall.
      rewrite Forall_forall in Hall. exact (Hall _ Hin eq_refl).
    - destruct (dict_has d (py "temi_ricorrenti")); [|destruct Hin].
      destruct Hin as [H|Hin]; [left; auto|].
      exfalso. apply in_map_iff in Hin as (t & Ht & _).
      rewrite <- Ht in Hnl. vm_compute in Hnl. discriminate Hnl.
    - cbn [In] in Hin. destruct Hin as [H|[H|[H|[H|[]]]]];
        try congruence; exfalso; exact (Hsp _ H).
    - destruct (dict_has d (py "priorita_intervento")); [|destruct Hin].
      destruct Hin as [H|Hin]; [right; auto|].
      exfalso. apply in_map_iff in Hin as (t & Ht & _). exact (Hsp _ Ht).
    - cbn [In] in Hin. destruct Hin as [H|[]]. congruence. }
  split; split.
  - intros Hin. apply Hmain in Hin; try differs; try reflexivity.
    destruct Hin as [[Hhas _] | [_ Heq]]; [exact Hhas|].
    exfalso. revert Heq. differs.
  - intros Hhas. unfold sezioni_lines. rewrite Hhas.
    do 4 (apply in_or_app; right). apply in_or_app; left. left; reflexivity.
  - intros Hin. apply Hmain in Hin; try differs; try reflexivity.
    destruct Hin as [[_ Heq] | [Hhas _]]; [|exact Hhas].
    exfalso. revert Heq. differs.
  - intros Hhas. unfold sezioni_lines. rewrite Hhas.
    do 6 (apply in_or_app; right). apply in_or_app; left. left; reflexivity.
Qed.

Lemma follows_here (a b : pystr) (l : list pystr) : follows a b (a :: b :: l).
Proof. exists [], l. reflexivity. Qed.

Lemma follows_cons (a b x : pystr) (l : list pystr) :
  follows a b l -> follows a b (x :: l).
Proof. intros (pre & post & ->). exists (x :: pre), post. reflexivity. Qed.

Lemma follows_app_r (a b : pystr) (l1 l2 : list pystr) :
  follows a b l2 -> follows a b (l1 ++ l2).
Proof.
  intros (pre & post & ->). exists (l1 ++ pre), post.
  rewrite <- app_assoc. reflexivity.
Qed.

(** C8 (amended).  On a result object whose list fields, where present,
    hold something a loop accepts, the report raises nothing, whichever
    fields are absent.  Each absent scalar field prints as [N/A]; the
    themes header and the priorities header are printed exactly when
    their keys are present. *)
Theorem stampa_report_total (d : dict) (st : state) :
  fields_iterable d ->
  exists out,
    stampa_report (VDict d) st = (Ret tt, printed out st)
    /\ (dict_has d (py "sentiment_score") = false ->
        In (nl ++ py "🎯 Sentiment Score: N/A/100") out)
    /\ (dict_has d (py "sentiment_label") = false ->
        In (py "📈 Sentiment: N/A") out)
    /\ (dict_has d (py "numero_recensioni_analizzate") = false ->
        In (py "📝 Recensioni analizzate: N/A") out)
    /\ (dict_has d (py "consiglio_ingegneristico") = false ->
        follows (nl ++ py "🔧 CONSIGLIO INGEGNERISTICO:") (py "   N/A") out)
    /\ (dict_has d (py "strategia_marketing") = false ->
        follows (nl ++ py "📢 STRATEGIA MARKETING:") (py "   N/A") out)
    /\ (In (nl ++ py "🔍 TEMI RICORRENTI:") out
        <-> dict_has d (py "temi_ricorrenti") = true)
    /\ (In (nl ++ py "🎯 PRIORITÀ DI INTERVENTO:") out
        <-> dict_has d (py "priorita_intervento") = true).
Proof.
  intros Hwf.
  exists ([nl ++ banner; py "📊 REPORT ANALISI RECENSIONI"; banner]
          ++ sezioni_lines d).
  destruct (header_occurrences d) as [Htemi Hprio].
  repeat apply conj.
  - unfold stampa_report. rewrite !bind_print.
    rewrite (stampa_sezioni_run _ Hwf), !printed_printed. reflexivity.
  - intros Hno. apply in_or_app; right. unfold sezioni_lines.
    rewrite (dict_get_absent _ _ NA Hno). left.
    vm_compute; reflexivity.
  - intros Hno. apply in_or_app; right. unfold sezioni_lines.
    rewrite (dict_get_absent _ _ NA Hno). right; left.
    vm_compute; reflexivity.
  - intros Hno. apply in_or_app; right. unfold sezioni_lines.
    rewrite (dict_get_absent _ _ NA Hno). right; right; left.
    vm_compute; reflexivity.
  - intros Hno. unfold sezioni_lines. rewrite (dict_get_absent _ _ NA Hno).
    do 6 apply follows_app_r. apply follows_here.
  - intros Hno. unfold sezioni_lines. rewrite (dict_get_absent _ _ NA Hno).
    do 6 apply follows_app_r. do 2 apply follows_cons. apply follows_here.
  - intros Hin. apply in_app_or in Hin as [Hin|Hin].
    + exfalso. cbn [In] in Hin. destruct Hin as [H|[H|[H|[]]]];
        revert H; differs.
    + exact (proj1 Htemi Hin).
  - intros Hhas. apply in_or_app; right. exact (proj2 Htemi Hhas).
  - intros Hin. apply in_app_or in Hin as [Hin|Hin].
    + exfalso. cbn [In] in Hin. destruct Hin as [H|[H|[H|[]]]];
        revert H; differs.
    + exact (proj1 Hprio Hin).
  - intros Hhas. apply in_or_app; right. exact (proj2 Hprio Hhas).
Qed.

End Report.

Lemma stampa_report_total_witness :
  exists out,
    stampa_report (VDict []) Demo.read_only_disk
    = (Ret tt, printed out Demo.read_only_disk)
    /\ In (nl ++ py "🎯 Sentiment Score: N/A/100") out
    /\ follows (nl ++ py "🔧 CONSIGLIO INGEGNERISTICO:") (py "   N/A") out
    /\ ~ In (nl ++ py "🔍 TEMI RICORRENTI:") out.
Proof.
  assert (Hwf : fields_iterable []) by (intros k _; reflexivity).
  destruct (@stampa_report_total Demo.ext [] Demo.read_only_disk Hwf)
    as (out & Hrun & Hscore & _ & _ & Hcons & _ & Htemi & _).
  exists out. split; [exact Hrun|]. split; [apply Hscore; reflexivity|].
  split; [apply Hcons; reflexivity|].
  intros Hin. apply Htemi in Hin. discriminate Hin.
Defined.

(** The report of the empty object, line by line. *)
Example stampa_report_empty_object :
  stampa_report (VDict []) Demo.read_only_disk =
  (Ret tt,
   printed
     [nl ++ banner; py "📊 REPORT ANALISI RECENSIONI"; banner;
      nl ++ py "🎯 Sentiment Score: N/A/100";
      py "📈 Sentiment: N/A";
      py "📝 Recensioni analizzate: N/A";
      nl ++ py "⚠️  PUNTI CRITICI:";
      nl ++ py "✅ VANTAGGI COMPETITIVI:";
      nl ++ py "🔧 CONSIGLIO INGEGNERISTICO:"; py "   N/A";
      nl ++ py "📢 STRATEGIA MARKETING:"; py "   N/A";
      nl ++ banner ++ nl]
     Demo.read_only_disk).
Proof. vm_compute. reflexivity. Qed.

(** C8 (as stated) fails on the object [{"punti_critici": null}], which
    misses the other eight fields: the loop of line 207 is given [None]
    and raises, after the summary and its three [N/A] lines. *)
Lemma stampa_report_null_points :
  fst (stampa_report (VDict [(py "punti_critici", VNone)]) Demo.read_only_disk)
  = Raise (TypeError (py "'NoneType' object is not iterable"))
  /\ stdout (snd (stampa_report (VDict [(py "punti_critici", VNone)])
                    Demo.read_only_disk))
     = [nl ++ banner; py "📊 REPORT ANALISI RECENSIONI"; banner;
        nl ++ py "🎯 Sentiment Score: N/A/100";
        py "📈 Sentiment: N/A";
        py "📝 Recensioni analizzate: N/A";
        nl ++ py "⚠️  PUNTI CRITICI:"]
  /\ ~ fields_iterable [(py "punti_critici", VNone)].
Proof.
  split; [vm_compute; reflexivity|]. split; [vm_compute; reflexivity|].
  intros H. specialize (H (py "punti_critici") (or_introl eq_refl)).
  vm_compute in H. discriminate H.
Qed.

(** The same with another list field: the loop of line 223 raises. *)
Example stampa_report_null_field :
  fst (stampa_report (VDict [(py "temi_ricorrenti", VNone)]) Demo.read_only_disk)
  = Raise (TypeError (py "'NoneType' object is not iterable")).
Proof. vm_compute. reflexivity. Qed.

(** The three literal parts of the prompt have the lengths of the
    source's f-string parts. *)
Example prompt_literal_lengths :
  length prompt_head = 429 /\ length prompt_mid = 875 /\ length prompt_tail = 78.
Proof. split; [|split]; vm_compute; reflexivity. Qed.

(** The entry point on a whole run: two models are asked, the report is
    printed, the save fails and is logged, the status is 0. *)
Example main_whole_run :
  fst (main Demo.whole_run) = Ret 0%Z
  /\ calls (snd (main Demo.whole_run))
     = [py "models/gemini-2.5-flash"; py "models/gemini-2.0-flash"]
  /\ nth_error (stdout (snd (main Demo.whole_run))) 3
     = Some (nl ++ py "🎯 Sentiment Score: 75/100")
  /\ last (logs (snd (main Demo.whole_run))) (INFO, [])
     = (ERROR, py "Errore nel salvataggio dei risultati: [Errno 13] Permission denied").
Proof. split; [|split; [|split]]; vm_compute; reflexivity. Qed.

(** ** More facts about the string operations *)

Lemma startswith_split (s p : pystr) :
  startswith s p = true -> s = p ++ skipn (length p) s.
Proof.
  revert s; induction p as [|x p IH]; intros s H; [reflexivity|].
  destruct s as [|y s]; simpl in H; [discriminate|].
  apply andb_true_iff in H as [Hx H]. apply N.eqb_eq in Hx. subst y.
  simpl. f_equal. apply IH; exact H.
Qed.

Lemma startswith_app_l (s t p : pystr) :
  startswith s p = true -> startswith (s ++ t) p = true.
Proof.
  intros H. rewrite (startswith_split _ _ H), <- app_assoc. apply startswith_app.
Qed.

(** [partition] cuts [s] at an occurrence of [sep]. *)
Lemma partition_cut (s sep a b : pystr) :
  partition s sep = Some (a, b) -> s = a ++ sep ++ b.
Proof.
  revert a; induction s as [|c s IH]; intros a; simpl.
  - destruct (startswith [] sep) eqn:Hs; [|discriminate].
    intros H; inversion H; subst. apply (startswith_split _ _ Hs).
  - destruct (startswith (c :: s) sep) eqn:Hs.
    + intros H; inversion H; subst. apply (startswith_split _ _ Hs).
    + destruct (partition s sep) as [[a' b']|]; [|discriminate].
      intros H; inversion H; subst. simpl. f_equal. apply IH; reflexivity.
Qed.

Lemma partition_none (s sep : pystr) :
  partition s sep = None -> contains s sep = false.
Proof.
  induction s as [|c s IH]; simpl.
  - destruct (startswith [] sep); [discriminate | reflexivity].
  - destruct (startswith (c :: s) sep); [discriminate|].
    destruct (partition s sep) as [[a b]|]; [discriminate|].
    intros _. simpl. apply IH; reflexivity.
Qed.

(** With fuel for every character the replacement is the same. *)
Lemma replace_fuel_enough (old new : pystr) (f : nat) :
  old <> [] ->
  forall s, length s <= f ->
  replace_fuel f s old new = replace_fuel (length s) s old new.
Proof.
  intros Hne. induction f as [f IH] using lt_wf_ind. intros s Hlen.
  destruct f as [|f].
  - destruct s; [reflexivity | simpl in Hlen; lia].
  - destruct (partition s old) as [[a b]|] eqn:Hp.
    + pose proof (partition_cut _ _ Hp) as Hs.
      assert (Hb : length b < length s).
      { rewrite Hs, !length_app. destruct old; [congruence | simpl; lia]. }
      destruct (length s) as [|n] eqn:Hn; [lia|].
      cbn [replace_fuel]. rewrite Hp.
      rewrite (IH f) by lia. rewrite (IH n) by lia. reflexivity.
    + cbn [replace_fuel]. rewrite Hp.
      destruct (length s); cbn [replace_fuel]; [|rewrite Hp]; reflexivity.
Qed.

(** [replace] on a text in which [old] occurs. *)
Lemma replace_cut (s old new a b : pystr) :
  old <> [] -> partition s old = Some (a, b) ->
  replace s old new = a ++ new ++ replace b old new.
Proof.
  intros Hne Hp. pose proof (partition_cut _ _ Hp) as Hs.
  unfold replace.
  assert (Hb : length b < length s).
  { rewrite Hs, !length_app. destruct old; [congruence | simpl; lia]. }
  destruct (length s) as [|n] eqn:Hn; [lia|].
  cbn [replace_fuel]. rewrite Hp.
  rewrite (@replace_fuel_enough old new n Hne b) by lia. reflexivity.
Qed.

Lemma contains_app_false (a b sep : pystr) :
  contains (a ++ b) sep = false ->
  contains a sep = false /\ contains b sep = false.
Proof.
  induction a as [|c a IH]; simpl; intros H.
  - split; [|exact H]. destruct sep; [|reflexivity].
    destruct b; simpl in H; discriminate.
  - apply orb_false_iff in H as [Hs H]. destruct (IH H) as [Ha Hb].
    split; [|exact Hb]. apply orb_false_iff; split; [|exact Ha].
    destruct (startswith (c :: a) sep) eqn:Hc; [|reflexivity].
    apply (startswith_app_l _ b) in Hc. simpl app in Hc. congruence.
Qed.

Lemma contains_skipn (n : nat) (s sep : pystr) :
  contains s sep = false -> contains (skipn n s) sep = false.
Proof.
  intros H. rewrite <- (firstn_skipn n s) in H.
  apply contains_app_false in H. tauto.
Qed.

Lemma lstrip_suffix (s : pystr) : exists w, s = w ++ lstrip s.
Proof.
  induction s as [|c s [w IH]]; simpl; [exists []; reflexivity|].
  destruct (isspace c); [|exists []; reflexivity].
  exists (c :: w). simpl. f_equal. exact IH.
Qed.

Lemma rstrip_prefix (s : pystr) : exists w, s = rstrip s ++ w.
Proof.
  unfold rstrip. destruct (lstrip_suffix (rev s)) as [w Hw].
  exists (rev w). rewrite <- rev_app_distr, <- Hw, rev_involutive. reflexivity.
Qed.

Lemma contains_strip (s sep : pystr) :
  contains s sep = false -> contains (strip s) sep = false.
Proof.
  intros H. unfold strip.
  destruct (lstrip_suffix s) as [w Hw]. rewrite Hw in H.
  apply contains_app_false in H as [_ H].
  destruct (rstrip_prefix (lstrip s)) as [w' Hw']. rewrite Hw' in H.
  apply contains_app_false in H as [H _]. exact H.
Qed.

Lemma lstrip_fixed (s : pystr) : lstrip (lstrip s) = lstrip s.
Proof.
  induction s as [|c s IH]; simpl; [reflexivity|].
  destruct (isspace c) eqn:Hc; [exact IH|]. simpl. rewrite Hc. reflexivity.
Qed.

Lemma lstrip_length (s : pystr) : length (lstrip s) <= length s.
Proof.
  induction s as [|c s IH]; simpl; [lia|]. destruct (isspace c); simpl; lia.
Qed.

(** A text [lstrip] leaves alone starts, if at all, with a character
    that is not white space; so do its prefixes. *)
Lemma lstrip_fixed_prefix (a b : pystr) :
  lstrip (a ++ b) = a ++ b -> lstrip a = a.
Proof.
  destruct a as [|c a]; [reflexivity|]. simpl.
  destruct (isspace c); [|reflexivity].
  intros H. pose proof (lstrip_length (a ++ b)) as Hl.
  rewrite H in Hl. simpl in Hl. lia.
Qed.

Lemma strip_fixed (s : pystr) : strip (strip s) = strip s.
Proof.
  assert (Hr : forall y, lstrip (rev (rstrip y)) = rev (rstrip y)).
  { intros y. unfold rstrip. rewrite rev_involutive. apply lstrip_fixed. }
  assert (Hl : lstrip (strip s) = strip s).
  { unfold strip. destruct (rstrip_prefix (lstrip s)) as [w Hw].
    apply (lstrip_fixed_prefix _ w). rewrite <- Hw. apply lstrip_fixed. }
  unfold strip at 1. rewrite Hl. unfold strip, rstrip at 1.
  rewrite Hr. unfold rstrip. rewrite !rev_involutive. reflexivity.
Qed.

(** ** More on the fence-stripping step *)

Lemma fence_chars : fence = [96%N; 96%N; 96%N].
Proof. reflexivity. Qed.

Lemma fence_barrier (x : char) : x <> 96%N -> ~ In x fence.
Proof. rewrite fence_chars. simpl. intuition congruence. Qed.

Lemma fence_nonempty : fence <> [].
Proof. rewrite fence_chars. discriminate. Qed.

Lemma contains_startswith (s sep : pystr) :
  contains s sep = false -> startswith s sep = false.
Proof. destruct s; simpl; intros H; apply orb_false_iff in H; tauto. Qed.

Lemma partition_nil_prefix (s sep b : pystr) :
  partition s sep = Some ([], b) -> startswith s sep = true.
Proof.
  destruct s as [|c s]; simpl.
  - destruct (startswith [] sep); [reflexivity | discriminate].
  - destruct (startswith (c :: s) sep); [reflexivity|].
    destruct (partition s sep) as [[a' b']|]; discriminate.
Qed.

(** The text before the leftmost fence does not end with a backtick:
    one more backtick would start the fence earlier. *)
Lemma partition_before_fence (s a b : pystr) :
  partition s fence = Some (a, b) ->
  a = [] \/ exists a' x, a = a' ++ [x] /\ x <> 96%N /\ contains a' fence = false.
Proof.
  revert a; induction s as [|c s IH]; intros a; cbn [partition].
  - destruct (startswith [] fence); [|discriminate].
    intros H; inversion H; subst; auto.
  - destruct (startswith (c :: s) fence) eqn:Hs.
    + intros H; inversion H; subst; auto.
    + destruct (partition s fence) as [[a0 b0]|] eqn:Hp; [|discriminate].
      intros H; inversion H; subst. right.
      destruct (IH a0 eq_refl) as [-> | (a' & x & -> & Hx & Ha')].
      * exists [], c. split; [reflexivity|]. split; [|reflexivity].
        intros ->. apply partition_nil_prefix in Hp.
        apply startswith_split in Hp. rewrite Hp, fence_chars in Hs.
        discriminate Hs.
      * exists (c :: a'), x. split; [reflexivity|]. split; [exact Hx|].
        cbn [contains]. rewrite Ha', orb_false_r.
        destruct (startswith (c :: a') fence) eqn:Hc; [|reflexivity].
        apply partition_cut in Hp. rewrite Hp, <- app_assoc in Hs.
        apply (startswith_app_l _ ([x] ++ fence ++ b)) in Hc.
        simpl app in *. congruence.
Qed.

(** Deleting the fences leaves none behind. *)
Lemma replace_fence_free (s : pystr) :
  contains (replace s fence []) fence = false.
Proof.
  remember (length s) as n eqn:Hn. revert s Hn.
  induction n as [n IH] using lt_wf_ind. intros s Hn.
  destruct (partition s fence) as [[a b]|] eqn:Hp.
  - rewrite (@replace_cut s fence [] a b fence_nonempty Hp). cbn [app].
    assert (Hb : contains (replace b fence []) fence = false).
    { apply (IH (length b)); [|reflexivity].
      apply partition_cut in Hp. rewrite Hn, Hp, !length_app, fence_chars.
      simpl. lia. }
    destruct (partition_before_fence _ Hp) as [-> | (a' & x & -> & Hx & Ha')];
      [exact Hb|].
    rewrite <- app_assoc. apply contains_barrier; auto using fence_barrier, fence_nonempty.
  - apply partition_none in Hp. rewrite (replace_absent _ _ [] Hp). exact Hp.
Qed.

Lemma clean_response_shape (t doc : pystr) :
  clean_response t = Some doc -> exists u, doc = strip (replace u fence []).
Proof.
  unfold clean_response.
  destruct (if startswith t fence then _ else _) as [u|]; [|discriminate].
  intros H; inversion H. eauto.
Qed.

(** X1.  What the step hands to the parser holds no fence and no outer
    white space, and the step applied to it changes nothing. *)
Theorem clean_response_idempotent (t doc : pystr) :
  clean_response t = Some doc ->
  contains doc fence = false
  /\ strip doc = doc
  /\ clean_response doc = Some doc.
Proof.
  intros H. destruct (clean_response_shape _ H) as [u ->].
  assert (Hfree : contains (strip (replace u fence [])) fence = false)
    by (apply contains_strip, replace_fence_free).
  assert (Hfix : strip (strip (replace u fence [])) = strip (replace u fence []))
    by apply strip_fixed.
  split; [exact Hfree|]. split; [exact Hfix|].
  unfold clean_response. rewrite (contains_startswith _ _ Hfree).
  rewrite (replace_absent _ _ [] Hfree), Hfix. reflexivity.
Qed.

Lemma clean_response_idempotent_witness :
  clean_response (py "Here: ```json {} ``` bye") = Some (py "Here: json {}  bye")
  /\ contains (py "Here: json {}  bye") fence = false
  /\ clean_response (py "Here: json {}  bye") = Some (py "Here: json {}  bye").
Proof.
  assert (H : clean_response (py "Here: ```json {} ``` bye")
              = Some (py "Here: json {}  bye")) by (vm_compute; reflexivity).
  split; [exact H|].
  destruct (clean_response_idempotent _ H) as (Hfree & _ & Hagain).
  split; [exact Hfree | exact Hagain].
Defined.

(** X2.  A reply that opens with a fence is cut at the next fence: what
    follows the closing fence never reaches the parser, and of the
    segment only a leading [json] is dropped. *)
Theorem text_after_closing_fence_is_dropped (a rest : pystr) (x : char) :
  contains a fence = false -> x <> 96%N ->
  clean_response (fence ++ a ++ [x] ++ fence ++ rest)
  = Some (strip (if startswith (a ++ [x]) (py "json")
                 then skipn 4 (a ++ [x]) else a ++ [x])).
Proof.
  intros Ha Hx.
  assert (Hseg : contains (a ++ [x]) fence = false)
    by (apply contains_barrier; auto using fence_barrier, fence_nonempty).
  unfold clean_response. rewrite startswith_app.
  assert (Hsplit : nth_error (split (fence ++ a ++ [x] ++ fence ++ rest) fence) 1
                   = Some (a ++ [x])).
  { unfold split.
    assert (Hlen : exists n, length (fence ++ a ++ [x] ++ fence ++ rest) = S (S n)).
    { rewrite length_app, fence_chars. simpl. eauto. }
    destruct Hlen as [n ->].
    rewrite split_fuel_S, partition_here, split_fuel_S.
    cbn [app].
    rewrite (@partition_leftmost fence a rest x (fence_barrier Hx) fence_nonempty Ha).
    reflexivity. }
  rewrite Hsplit.
  destruct (startswith (a ++ [x]) (py "json")).
  - rewrite (replace_absent _ _ [] (contains_skipn 4 _ _ Hseg)). reflexivity.
  - rewrite (replace_absent _ _ [] Hseg). reflexivity.
Qed.

Lemma text_after_closing_fence_is_dropped_witness :
  clean_response (fence ++ py "json" ++ nl ++ py "{}" ++ [10%N] ++ fence
                  ++ py " Hope this helps!")
  = Some (py "{}").
Proof.
  exact (@text_after_closing_fence_is_dropped (py "json" ++ nl ++ py "{}")
           (py " Hope this helps!") 10%N eq_refl ltac:(discriminate)).
Defined.

(** X3.  A reply that does not open with a fence is not cut: the fences
    inside it are deleted, and the text before, between and after them,
    the [json] tag included, stays. *)
Theorem text_before_opening_fence_stays (p a rest : pystr) (x y : char) :
  contains p fence = false -> contains a fence = false ->
  contains rest fence = false -> x <> 96%N -> y <> 96%N ->
  clean_response (p ++ [x] ++ fence ++ a ++ [y] ++ fence ++ rest)
  = Some (strip (p ++ [x] ++ a ++ [y] ++ rest)).
Proof.
  intros Hp Ha Hrest Hx Hy.
  unfold clean_response.
  assert (Hstart : startswith (p ++ [x] ++ fence ++ a ++ [y] ++ fence ++ rest) fence
                   = false).
  { destruct (startswith _ fence) eqn:Hs; [|reflexivity].
    apply (startswith_barrier fence p _ x (fence_barrier Hx)) in Hs.
    apply contains_startswith in Hp. congruence. }
  rewrite Hstart. do 2 f_equal. cbn [app].
  rewrite (@replace_cut _ fence [] _ _ fence_nonempty
             (@partition_leftmost fence p (a ++ y :: fence ++ rest) x
                (fence_barrier Hx) fence_nonempty Hp)).
  rewrite (@replace_cut _ fence [] _ _ fence_nonempty
             (@partition_leftmost fence a rest y
                (fence_barrier Hy) fence_nonempty Ha)).
  rewrite (replace_absent _ _ [] Hrest). cbn [app].
  rewrite <- !app_assoc. reflexivity.
Qed.

Lemma text_before_opening_fence_stays_witness :
  clean_response (py "Here it is" ++ [58%N] ++ fence ++ py "json" ++ [10%N]
                  ++ fence ++ [])
  = Some (py "Here it is:json").
Proof.
  exact (@text_before_opening_fence_stays (py "Here it is") (py "json") []
           58%N 10%N eq_refl eq_refl eq_refl
           ltac:(discriminate) ltac:(discriminate)).
Defined.

(** ** The loader's failures *)

Section LoaderFailures.

Context {E : External}.

Lemma logged_logged (a b : list (level * pystr)) (st : state) :
  logged b (logged a st) = logged (a ++ b) st.
Proof. unfold logged; cbn. rewrite app_assoc. reflexivity. Qed.

Lemma logged_nil (st : state) : logged [] st = st.
Proof. destruct st; unfold logged; cbn. rewrite app_nil_r. reflexivity. Qed.

(** X4.  Without the file nothing is read and no model is asked: the
    run ends with [FileNotFoundError] right after its first log record. *)
Theorem missing_file_stops_the_run (file_csv column_name : pystr)
    (max_reviews : Z) (st : state) :
  os_path_exists file_csv (world st) = false ->
  analizza_dati file_csv max_reviews column_name st =
  (Raise (FileNotFoundError (py "File non trovato: " ++ file_csv)),
   logged [(INFO, py "Inizio analisi del file: " ++ file_csv)] st).
Proof.
  intros Hfile. unfold analizza_dati, bind, logger, raise.
  change (world (logged _ st)) with (world st). rewrite Hfile. reflexivity.
Qed.

(** X5.  What the two [except] clauses of the loader do with an exception
    of [read_csv]: an [EmptyDataError] becomes the [ValueError] on the
    empty file and leaves no log record; any other exception is logged
    at ERROR level and raised again as it is. *)
Theorem load_reviews_read_error (file_csv column_name : pystr)
    (max_reviews : Z) (st : state) (e : error) :
  pd_read_csv file_csv (world st) = inr e ->
  ((exists msg, e = EmptyDataError msg) ->
   load_reviews file_csv max_reviews column_name st
   = (Raise (ValueError (py "Il file CSV è vuoto")), st))
  /\ ((forall msg, e <> EmptyDataError msg) ->
      load_reviews file_csv max_reviews column_name st
      = (Raise e, logged [(ERROR, py "Errore nel caricamento file: "
                                  ++ exn_str e)] st)).
Proof.
  intros Hread.
  assert (Hrun : load_reviews file_csv max_reviews column_name st
                 = match e with
                   | EmptyDataError _ =>
                       (Raise (ValueError (py "Il file CSV è vuoto")), st)
                   | _ => (Raise e,
                           logged [(ERROR, py "Errore nel caricamento file: "
                                           ++ exn_str e)] st)
                   end).
  { unfold load_reviews, try_except. unfold bind at 1. rewrite Hread.
    destruct e; reflexivity. }
  rewrite Hrun. split.
  - intros [msg ->]. reflexivity.
  - intros Hne. destruct e; try reflexivity. elim (Hne msg); reflexivity.
Qed.

(** X6.  The [ValueError] on a missing column is raised inside the [try]
    block, so the second [except] clause catches it: it is logged at
    ERROR level, after the record count, and raised again. *)
Theorem missing_column_is_logged (file_csv column_name : pystr)
    (max_reviews : Z) (st : state) (df : DataFrame) :
  pd_read_csv file_csv (world st) = inl df ->
  has_column df column_name = false ->
  let msg := py "Colonna '" ++ column_name
             ++ py "' non trovata. Colonne disponibili: "
             ++ join (py ", ") (df_columns df) in
  load_reviews file_csv max_reviews column_name st
  = (Raise (ValueError msg),
     logged [(INFO, py "Caricati " ++ str_nat (df_len df)
                    ++ py " record dal file CSV");
             (ERROR, py "Errore nel caricamento file: " ++ msg)] st).
Proof.
  intros Hread Hcol msg.
  unfold load_reviews, try_except, bind, read_column, logger, ret, raise.
  rewrite Hread. change (world (logged _ st)) with (world st).
  rewrite Hcol. cbn [negb]. rewrite logged_logged. reflexivity.
Qed.

(** The loader changes nothing but the log. *)
Lemma load_reviews_only_logs (file_csv column_name : pystr) (max_reviews : Z) :
  only_logs (load_reviews file_csv max_reviews column_name).
Proof.
  intros st.
  destruct (pd_read_csv file_csv (world st)) as [df|e] eqn:Hread.
  - destruct (has_column df column_name) eqn:Hcol.
    + destruct (chosen_column_some df column_name Hcol) as [rows Hrows].
      rewrite (load_reviews_run file_csv column_name max_reviews st Hread Hcol Hrows).
      cbn [snd]. rewrite logged_logged. eauto.
    + unfold load_reviews, try_except, bind, read_column, logger, ret, raise.
      rewrite Hread. change (world (logged _ st)) with (world st).
      rewrite Hcol. cbn [negb snd]. rewrite logged_logged. eauto.
  - unfold load_reviews, try_except, bind at 1. rewrite Hread.
    destruct e; unfold bind, logger, raise; cbn [snd]; eauto.
    exists []. rewrite logged_nil. reflexivity.
Qed.
End LoaderFailures.

(** ** The slice and the numbers of the blocks *)



Section Slice.

Context {E : External}.

(** X8.  No value of [max_reviews] makes the loader fail: a bound that is
    not negative keeps that many rows from the head, a negative one drops
    that many rows from the end, and zero leaves an empty batch. *)
Theorem max_reviews_of_any_sign (file_csv column_name : pystr)
    (max_reviews : Z) (st : state) (df : DataFrame) (rows : Series) :
  pd_read_csv file_csv (world st) = inl df ->
  has_column df column_name = true ->
  chosen_column df column_name = Some rows ->
  exists reviews_list,
    fst (load_reviews file_csv max_reviews column_name st)
    = Ret (render reviews_list, reviews_list)
    /\ ((0 <= max_reviews)%Z ->
        reviews_list = firstn (Z.to_nat max_reviews) (astype_str rows)
        /\ length reviews_list = Nat.min (length rows) (Z.to_nat max_reviews))
    /\ ((max_reviews < 0)%Z ->
        reviews_list
        = firstn (length rows - Z.to_nat (- max_reviews)) (astype_str rows)
        /\ length reviews_list = length rows - Z.to_nat (- max_reviews))
    /\ (max_reviews = 0%Z -> reviews_list = [] /\ render reviews_list = []).
Proof.
  intros Hread Hcol Hrows.
  exists (slice_to (astype_str rows) max_reviews).
  rewrite (load_reviews_run file_csv column_name max_reviews st Hread Hcol Hrows).
  split; [reflexivity|].
  assert (Hlen : length (astype_str rows) = length rows)
    by (unfold astype_str; apply length_map).
  unfold slice_to. split; [|split].
  - intros Hpos. destruct (Z.leb_spec 0 max_reviews); [|lia].
    split; [reflexivity|]. rewrite length_firstn, Hlen. lia.
  - intros Hneg. destruct (Z.leb_spec 0 max_reviews); [lia|].
    rewrite Hlen. split; [reflexivity|]. rewrite length_firstn, Hlen. lia.
  - intros ->. split; reflexivity.
Qed.

Lemma selected_none (l : list pystr) :
  Forall (fun r => kept r = false) l -> selected l = [].
Proof.
  unfold selected. generalize 0.
  induction l as [|x l IH]; intros start H; cbn [enumerate filter]; [reflexivity|].
  inversion H; subst. cbn [snd].
  match goal with Hx : kept x = false |- _ => rewrite Hx end. apply IH; assumption.
Qed.

(** X9.  A batch without a usable row does not stop the run: the models
    are asked with an empty feedback block, under the count of the rows
    of the slice. *)
Theorem empty_feedback_is_still_sent (file_csv column_name : pystr)
    (max_reviews : Z) (st : state) (df : DataFrame) (rows : Series) :
  os_path_exists file_csv (world st) = true ->
  pd_read_csv file_csv (world st) = inl df ->
  has_column df column_name = true ->
  chosen_column df column_name = Some rows ->
  Forall (fun r => kept r = false) (slice_to (astype_str rows) max_reviews) ->
  exists st1,
    analizza_dati file_csv max_reviews column_name st
    = try_models model_names
        (prompt_head
         ++ str_nat (length (slice_to (astype_str rows) max_reviews))
         ++ prompt_mid ++ prompt_tail) st1
    /\ calls st1 = calls st.
Proof.
  intros Hfile Hread Hcol Hrows Hnone.
  set (st0 := logged [(INFO, py "Inizio analisi del file: " ++ file_csv)] st).
  assert (Hrun := @load_reviews_run E file_csv column_name max_reviews st0
                    df rows Hread Hcol Hrows).
  eexists. split.
  - unfold analizza_dati, bind at 1, logger at 1.
    fold st0. unfold bind at 1.
    change (world st0) with (world st). rewrite Hfile. cbn [negb].
    unfold bind at 1. rewrite Hrun. cbn [fst snd].
    unfold build_prompt, render, blocks. rewrite (selected_none Hnone).
    reflexivity.
  - reflexivity.
Qed.

(** X10.  When the loader raises, the run ends with the loader's exception
    and has asked no model, printed nothing and left the world as it
    was. *)
Theorem no_reviews_no_call (file_csv column_name : pystr)
    (max_reviews : Z) (st st1 : state) (e : error) :
  os_path_exists file_csv (world st) = true ->
  load_reviews file_csv max_reviews column_name
    (logged [(INFO, py "Inizio analisi del file: " ++ file_csv)] st)
  = (Raise e, st1) ->
  analizza_dati file_csv max_reviews column_name st = (Raise e, st1)
  /\ calls st1 = calls st /\ stdout st1 = stdout st /\ world st1 = world st.
Proof.
  intros Hfile Hload. split.
  - unfold analizza_dati, bind at 1, logger at 1. unfold bind at 1.
    change (world (logged _ st)) with (world st). rewrite Hfile. cbn [negb].
    unfold bind at 1. rewrite Hload. reflexivity.
  - destruct (load_reviews_only_logs file_csv column_name max_reviews
                (logged [(INFO, py "Inizio analisi del file: " ++ file_csv)] st))
      as [records Hst].
    rewrite Hload in Hst. cbn [snd] in Hst. subst st1. auto.
Qed.

End Slice.

(** ** The fallback loop, read backwards *)

Section FallbackConverse.

Context {E : External}.

(** An attempt that returns: the service answered with a text, and the
    value is what the parser made of the cleaned text. *)
Lemma try_model_returns (m prompt : pystr) (st st1 : state) (v : value) :
  try_model m prompt st = (Ret v, st1) ->
  exists text w doc,
    service_call m prompt (world st) = (inl (Some text), w)
    /\ clean_response (strip text) = Some doc
    /\ json_loads doc = inl v
    /\ world st1 = w
    /\ logs st1 = logs st
         ++ [(INFO, py "Tentativo con modello: " ++ m);
             (INFO, py "✓ Risposta ricevuta da Gemini API usando " ++ m);
             (INFO, py "✓ Analisi completata con successo")].
Proof.
  unfold service_call, try_model, bind, logger, logged, generate_content, ret, raise.
  cbn [world logs stdout calls].
  destruct (if USE_NEW_API then _ else _) as [[[text|]|le] w];
    cbn [world logs stdout calls]; try (intros H; discriminate H).
  destruct (clean_response (strip text)) as [doc|] eqn:Hclean;
    [|intros H; discriminate H].
  destruct (json_loads doc) as [v'|msg] eqn:Hloads; intros H; inversion H; subst.
  exists text, w, doc. cbn [world logs]. rewrite <- !app_assoc. auto.
Qed.

(** How the loop ends: all candidates failed, or the candidates before
    one failed and that one returned. *)
Lemma for_model_names_ends (prompt : pystr) (names : list pystr) :
  forall (last_error : option error) (st st' : state)
         (r : outcome (value + option error)),
    for_model_names names prompt last_error st = (r, st') ->
    (exists es,
       failures prompt names st es st'
       /\ r = Ret (inr (fold_left (fun _ e => Some (recorded e)) es last_error)))
    \/ (exists pre m rest es st1 v,
          names = pre ++ m :: rest
          /\ failures prompt pre st es st1
          /\ try_model m prompt st1 = (Ret v, st')
          /\ r = Ret (inl v)).
Proof.
  induction names as [|m ms IH]; intros last_error st st' r; cbn [for_model_names].
  - intros H; inversion H; subst. left. exists []. split; [constructor | reflexivity].
  - destruct (try_model m prompt st) as [[v|e] st1] eqn:Htry.
    + intros H; inversion H; subst. right.
      exists [], m, ms, [], st, v. repeat split; auto. constructor.
    + unfold bind at 1.
      destruct (record_failure_run m e st1) as [records Hrec]. rewrite Hrec.
      intros H. apply IH in H as [(es & Hfail & ->) | (pre & m' & rest & es & st2 & v & -> & Hfail & Hok & ->)].
      * left. exists (e :: es). split; [|reflexivity].
        econstructor; eassumption.
      * right. exists (m :: pre), m', rest, (e :: es), st2, v.
        repeat split; auto. econstructor; eassumption.
Qed.




(** How the invoker ends. *)
Lemma try_models_ends (names : list pystr) (prompt : pystr) (st : state) :
  (exists es st1,
     failures prompt names st es st1
     /\ try_models names prompt st
        = (Raise (last (List.map recorded es) no_model_error),
           logged [(ERROR, py "Tutti i modelli hanno fallito")] st1))
  \/ (exists pre m rest es st1 v st',
        names = pre ++ m :: rest
        /\ failures prompt pre st es st1
        /\ try_model m prompt st1 = (Ret v, st')
        /\ try_models names prompt st = (Ret v, st')).
Proof.
  unfold try_models, bind at 1. unfold bind at 2.
  destruct (for_model_names names prompt None st) as [r st'] eqn:Hrun.
  apply for_model_names_ends in Hrun
    as [(es & Hfail & ->) | (pre & m & rest & es & st1 & v & -> & Hfail & Hok & ->)].
  - left. exists es, st'. split; [exact Hfail|].
    rewrite (fold_left_last es None no_model_error).
    unfold bind, logger, raise. destruct es; reflexivity.
  - right. exists pre, m, rest, es, st1, v, st'. auto.
Qed.



(** X13.  The invoker returns only what the parser made of a reply: the
    candidates before some model failed, that model's reply was cleaned
    and parsed, and the value returned is the parsed one.  The last log
    record is the one of the success. *)
Theorem returns_only_a_parsed_reply (names : list pystr) (prompt : pystr)
    (st st' : state) (v : value) :
  try_models names prompt st = (Ret v, st') ->
  exists pre m rest es st1 text doc,
    names = pre ++ m :: rest
    /\ failures prompt pre st es st1
    /\ fst (service_call m prompt (world st1)) = inl (Some text)
    /\ clean_response (strip text) = Some doc
    /\ json_loads doc = inl v
    /\ world st' = snd (service_call m prompt (world st1))
    /\ last (logs st') (ERROR, []) = (INFO, py "✓ Analisi completata con successo").
Proof.
  destruct (try_models_ends names prompt st)
    as [(es & st1 & Hfail & ->) | (pre & m & rest & es & st1 & v' & st2 & -> & Hfail & Hok & ->)];
    intros H; inversion H; subst.
  apply try_model_returns in Hok
    as (text & w & doc & Hcall & Hclean & Hloads & Hw & Hlogs).
  exists pre, m, rest, es, st1, text, doc. rewrite Hcall. cbn [fst snd].
  repeat split; auto.
  rewrite Hlogs.
  change [(INFO, py "Tentativo con modello: " ++ m);
          (INFO, py "✓ Risposta ricevuta da Gemini API usando " ++ m);
          (INFO, py "✓ Analisi completata con successo")]
    with ([(INFO, py "Tentativo con modello: " ++ m);
           (INFO, py "✓ Risposta ricevuta da Gemini API usando " ++ m)]
          ++ [(INFO, py "✓ Analisi completata con successo")]).
  rewrite app_assoc. apply last_last.
Qed.

End FallbackConverse.

Section Attempts.

Context {E : External}.


(** X14.  [split(...)[1]] is guarded by [startswith]: the cleaning step
    yields a text for every reply, so no attempt fails with the
    [IndexError] of an index out of range. *)
Theorem fence_split_in_range (m prompt : pystr) (st st1 : state) (e : error) :
  (forall t, exists doc, clean_response t = Some doc)
  /\ (try_model m prompt st = (Raise e, st1) -> forall msg, e <> IndexError msg).
Proof.
  split.
  - intros t. pose proof (clean_response_total t) as H.
    destruct (clean_response t) as [doc|]; [eauto | congruence].
  - intros Htry msg. apply try_model_raises in Htry
      as [(le & w & _ & ->) | [(w & _ & ->) | (text & w & doc & msg' & _ & _ & _ & ->)]];
      discriminate.
Qed.





End Attempts.

(** ** The report on any value *)

Section ReportOutcome.

Context {E : External}.

Lemma only_prints_ret {A} (a : A) : only_prints (ret a).
Proof. intros st. exists []. cbn. rewrite printed_nil. reflexivity. Qed.

Lemma only_prints_raise {A} (e : error) : only_prints (@raise _ A e).
Proof. intros st. exists []. cbn. rewrite printed_nil. reflexivity. Qed.

Lemma only_prints_print (line : pystr) : only_prints (print line).
Proof. intros st. exists [line]. reflexivity. Qed.

Lemma only_prints_bind {A B} (m : M A) (k : A -> M B) :
  only_prints m -> (forall a, only_prints (k a)) -> only_prints (bind m k).
Proof.
  intros Hm Hk st. unfold bind. destruct (Hm st) as [out Hout].
  destruct (m st) as [[a|e] st1]; cbn [snd] in Hout; subst st1.
  - destruct (Hk a (printed out st)) as [out' Hout'].
    exists (out ++ out'). rewrite Hout', printed_printed. reflexivity.
  - exists out. reflexivity.
Qed.

Lemma only_prints_for_each {A} (l : list A) (body : A -> M unit) :
  (forall x, only_prints (body x)) -> only_prints (for_each l body).
Proof.
  intros Hbody. induction l as [|x l IH]; cbn [for_each].
  - apply only_prints_ret.
  - apply only_prints_bind; auto.
Qed.

Lemma only_prints_iter (v : value) : only_prints (iter v).
Proof. destruct v; cbn [iter]; auto using only_prints_ret, only_prints_raise. Qed.

Lemma only_prints_dict_getitem (d : dict) (k : pystr) :
  only_prints (dict_getitem d k).
Proof.
  unfold dict_getitem. destruct (dict_has d k);
    auto using only_prints_ret, only_prints_raise.
Qed.

Ltac footprint :=
  repeat first
    [ apply only_prints_print
    | apply only_prints_ret
    | apply only_prints_raise
    | apply only_prints_iter
    | apply only_prints_dict_getitem
    | apply only_prints_bind; [|intros ?]
    | apply only_prints_for_each; intros [? []]; cbn [fst snd]
    | apply only_prints_for_each; intros ?
    | match goal with |- only_prints (if ?b then _ else _) => destruct b end ].

Lemma stampa_sezioni_only_prints (d : dict) : only_prints (stampa_sezioni d).
Proof. unfold stampa_sezioni. footprint. Qed.

(** X17.  Whatever it is given, the report writes to the standard output
    and to nothing else, and its first three lines are the banner. *)
Theorem stampa_report_footprint (risultato : value) (st : state) :
  exists out,
    snd (stampa_report risultato st)
    = printed ([nl ++ banner; py "📊 REPORT ANALISI RECENSIONI"; banner] ++ out) st.
Proof.
  unfold stampa_report. rewrite !bind_print, !printed_printed. cbn [app].
  assert (Hrest : only_prints
            match risultato with
            | VDict d => stampa_sezioni d
            | _ => raise (AttributeError
                            (py "'" ++ type_name risultato
                             ++ py "' object has no attribute 'get'"))
            end)
    by (destruct risultato;
        auto using only_prints_raise, stampa_sezioni_only_prints).
  destruct (Hrest (printed [nl ++ banner; py "📊 REPORT ANALISI RECENSIONI"; banner] st))
    as [out Hout].
  exists out. rewrite Hout, printed_printed. reflexivity.
Qed.


Lemma fst_bind_raise {A B} (m : M A) (k : A -> M B) (st : state) (e : error) :
  fst (m st) = Raise e -> fst (bind m k st) = Raise e.
Proof. unfold bind. destruct (m st) as [[a|e'] st1]; cbn; congruence. Qed.



End ReportOutcome.

(** ** The entry point *)

Section MainOutcome.

Context {E : External}.

Lemma salva_risultati_returns (risultato : value) (output_file : pystr) (st : state) :
  exists st', salva_risultati risultato output_file st = (Ret tt, st').
Proof.
  pose proof (salva_risultati_run risultato output_file st) as Hrun.
  destruct (write_json risultato output_file st) as [[[]|e] s1]; eauto.
Qed.

Lemma main_run (st : state) :
  main st =
  match analizza_dati (py "recensioni.csv") 50 (py "a-size-base 3") st with
  | (Raise e, st1) => main_failed e st1
  | (Ret v, st1) =>
      match stampa_report v st1 with
      | (Raise e, st2) => main_failed e st2
      | (Ret _, st2) =>
          (Ret 0%Z,
           printed [py "📄 Output JSON completo:"; json_dumps v]
             (snd (salva_risultati v (py "analisi_risultati.json") st2)))
      end
  end.
Proof.
  unfold main, try_except. cbv zeta. unfold bind at 1.
  destruct (analizza_dati _ _ _ st) as [[v|e] st1]; [|reflexivity].
  unfold bind at 1. destruct (stampa_report v st1) as [[[]|e] st2]; [|reflexivity].
  unfold bind at 1.
  destruct (salva_risultati_returns v (py "analisi_risultati.json") st2) as [st3 Hs].
  rewrite Hs. cbn [snd]. unfold bind, print, ret. rewrite printed_printed.
  reflexivity.
Qed.


(** X20.  A reply that parses to something that is no object passes the
    invoker and stops the report at its first [get]: the banner is
    printed, the run ends with status 1 on the [AttributeError], and the
    result is not saved. *)
Theorem result_that_is_no_object (st st1 : state) (v : value) :
  analizza_dati (py "recensioni.csv") 50 (py "a-size-base 3") st = (Ret v, st1) ->
  (forall d, v <> VDict d) ->
  let msg := py "'" ++ type_name v ++ py "' object has no attribute 'get'" in
  main st
  = (Ret 1%Z,
     printed [nl ++ py "❌ Errore: " ++ msg]
       (logged [(ERROR, py "Errore durante l'esecuzione: " ++ msg)]
          (printed [nl ++ banner; py "📊 REPORT ANALISI RECENSIONI"; banner] st1)))
  /\ world (snd (main st)) = world st1.
Proof.
  intros Hrun Hv msg.
  assert (Hmain : main st
    = (Ret 1%Z,
       printed [nl ++ py "❌ Errore: " ++ msg]
         (logged [(ERROR, py "Errore durante l'esecuzione: " ++ msg)]
            (printed [nl ++ banner; py "📊 REPORT ANALISI RECENSIONI"; banner] st1)))).
  { rewrite main_run, Hrun. unfold stampa_report. rewrite !bind_print, !printed_printed.
    destruct v; try reflexivity. elim (Hv d); reflexivity. }
  rewrite Hmain. split; reflexivity.
Qed.

End MainOutcome.

Lemma result_that_is_no_object_witness :
  fst (main Lab.array_reply) = Ret 1%Z
  /\ last (stdout (snd (main Lab.array_reply))) []
     = nl ++ py "❌ Errore: 'list' object has no attribute 'get'".
Proof.
  assert (Hrun : analizza_dati (py "recensioni.csv") 50 (py "a-size-base 3")
                   Lab.array_reply
                 = (Ret (VList []),
                    snd (analizza_dati (py "recensioni.csv") 50 (py "a-size-base 3")
                           Lab.array_reply)))
    by (vm_compute; reflexivity).
  destruct (@result_that_is_no_object Lab.ext _ _ _ Hrun
              ltac:(intros d; discriminate)) as [Hmain _].
  rewrite Hmain. split; [reflexivity | vm_compute; reflexivity].
Defined.

Lemma missing_file_stops_the_run_witness :
  analizza_dati (py "recensioni.csv") 50 (py "body") Lab.empty_disk
  = (Raise (FileNotFoundError (py "File non trovato: recensioni.csv")),
     logged [(INFO, py "Inizio analisi del file: recensioni.csv")] Lab.empty_disk).
Proof.
  exact (@missing_file_stops_the_run Lab.ext (py "recensioni.csv") (py "body") 50
           Lab.empty_disk eq_refl).
Defined.

(** ** Runs of the statements above *)

Lemma load_reviews_read_error_witness :
  load_reviews (py "recensioni.csv") 50 (py "body") Lab.empty_file
  = (Raise (ValueError (py "Il file CSV è vuoto")), Lab.empty_file)
  /\ load_reviews (py "recensioni.csv") 50 (py "body") Lab.broken_file
     = (Raise (LibError (py "Error tokenizing data")),
        logged [(ERROR, py "Errore nel caricamento file: "
                        ++ @exn_str Lab.ext (LibError (py "Error tokenizing data")))]
          Lab.broken_file).
Proof.
  split.
  - apply (@load_reviews_read_error Lab.ext (py "recensioni.csv") (py "body") 50
             Lab.empty_file
             (EmptyDataError (py "No columns to parse from file")) eq_refl).
    eexists; reflexivity.
  - apply (@load_reviews_read_error Lab.ext (py "recensioni.csv") (py "body") 50
             Lab.broken_file (LibError (py "Error tokenizing data")) eq_refl).
    intros msg; discriminate.
Defined.

Lemma missing_column_is_logged_witness :
  let msg := py "Colonna '" ++ py "body"
             ++ py "' non trovata. Colonne disponibili: "
             ++ join (py ", ") (df_columns Demo.override_only) in
  load_reviews (py "recensioni.csv") 50 (py "body")
    (Demo.of_table Demo.override_only)
  = (Raise (ValueError msg),
     logged [(INFO, py "Caricati " ++ str_nat (df_len Demo.override_only)
                    ++ py " record dal file CSV");
             (ERROR, py "Errore nel caricamento file: " ++ msg)]
       (Demo.of_table Demo.override_only)).
Proof.
  exact (@missing_column_is_logged Demo.ext (py "recensioni.csv") (py "body") 50
           (Demo.of_table Demo.override_only) Demo.override_only eq_refl eq_refl).
Defined.

Lemma max_reviews_of_any_sign_witness :
  exists reviews_list,
    fst (load_reviews (py "recensioni.csv") (-1) (py "body")
           (Demo.of_table Demo.reviews_table))
    = Ret (render reviews_list, reviews_list)
    /\ reviews_list = [py "ok"; []].
Proof.
  destruct (@max_reviews_of_any_sign Demo.ext (py "recensioni.csv") (py "body") (-1)
              (Demo.of_table Demo.reviews_table) Demo.reviews_table
              (fillna_empty [Val (py "ok"); NaN; Val (py "also ok")])
              eq_refl eq_refl eq_refl)
    as (reviews_list & Hrun & _ & Hneg & _).
  exists reviews_list. split; [exact Hrun|].
  destruct (Hneg ltac:(lia)) as [-> _]. reflexivity.
Defined.

Lemma empty_feedback_is_still_sent_witness :
  exists st1,
    analizza_dati (py "recensioni.csv") 50 (py "body") Lab.no_usable_row
    = try_models model_names
        (prompt_head ++ str_nat 2 ++ prompt_mid ++ prompt_tail) st1
    /\ calls st1 = calls Lab.no_usable_row.
Proof.
  exact (@empty_feedback_is_still_sent Lab.ext (py "recensioni.csv") (py "body") 50
           Lab.no_usable_row [(py "body", [NaN; Val (py "  ")])]
           [Val []; Val (py "  ")] eq_refl eq_refl eq_refl eq_refl
           ltac:(repeat constructor)).
Defined.

Lemma no_reviews_no_call_witness :
  fst (analizza_dati (py "recensioni.csv") 50 (py "body") Lab.empty_file)
  = Raise (ValueError (py "Il file CSV è vuoto"))
  /\ calls (snd (analizza_dati (py "recensioni.csv") 50 (py "body") Lab.empty_file))
     = [].
Proof.
  assert (Hload :
    load_reviews (py "recensioni.csv") 50 (py "body")
      (logged [(INFO, py "Inizio analisi del file: " ++ py "recensioni.csv")]
         Lab.empty_file)
    = (Raise (ValueError (py "Il file CSV è vuoto")),
       logged [(INFO, py "Inizio analisi del file: " ++ py "recensioni.csv")]
         Lab.empty_file)) by (vm_compute; reflexivity).
  destruct (@no_reviews_no_call Lab.ext (py "recensioni.csv") (py "body") 50
              Lab.empty_file _ _ eq_refl Hload) as (Hrun & Hcalls & _).
  rewrite Hrun. split; [reflexivity | exact Hcalls].
Defined.


Lemma returns_only_a_parsed_reply_witness :
  exists pre m rest text doc,
    model_names = pre ++ m :: rest
    /\ clean_response (strip text) = Some doc
    /\ @json_loads Demo.ext doc = inl (VDict []).
Proof.
  assert (Hrun : try_models model_names (py "prompt") Demo.second_answers
                 = (Ret (VDict []),
                    snd (try_models model_names (py "prompt") Demo.second_answers)))
    by (vm_compute; reflexivity).
  destruct (@returns_only_a_parsed_reply Demo.ext _ _ _ _ _ Hrun)
    as (pre & m & rest & es & st1 & text & doc & Hnames & _ & _ & Hclean & Hloads & _).
  exists pre, m, rest, text, doc. auto.
Defined.


